(** * Exercise tracker: a shallow embedding of the request handlers

    The development follows the layout of the application:

    - [JS]       the fragment of the JavaScript value model the handlers
                 rely on (truthiness, [typeof], loose comparison with [0],
                 string conversion, the string methods of the schema setter);
    - [Moment]   the date library: strict parsing against ["YYYY-MM-DD"],
                 rendering of an instant as a calendar date;
    - [Db]       the two collections, with the casts and the unique index
                 declared by the schemas;
    - [Express]  the response object, the error middleware and the
                 forwarding function [next];
    - [App]      the route handlers of [index.js] and the route table.

    Strings are sequences of 8-bit characters; on ASCII text they coincide
    with the code units JavaScript counts and compares, and case mapping
    is the ASCII one.

    The libraries are modelled by their documented behaviour on the
    inputs the handlers give them.  Three behaviours are left as
    parameters of the handlers: the offset of local time, the reading of
    an arbitrary request value as a date by [moment(v)], and the driver's
    treatment of a limit that is not a positive integer.  The clock and
    the reachability of the database are part of the state a request
    runs in.  Static files, the index page, CORS headers and console
    output are outside the model. *)

From Stdlib Require Import ZArith NArith List String Ascii Bool Lia.
From Stdlib Require Import DecimalString.
Import ListNotations.

Open Scope string_scope.
Open Scope Z_scope.

#[local] Set Warnings "-register-all".

(* ================================================================= *)
(** ** JavaScript values *)

Module JS.

(** Values that reach the handlers: a form or query field is absent
    ([JUndefined]), a string, or an array / object built by the extended
    parser for bracketed keys.  Numbers only appear when the handler itself
    assigns one ([limit = 20]). *)
Inductive jsval : Type :=
| JUndefined
| JNumber (n : Z)
| JString (s : string)
| JArray (items : list jsval)
| JObject (fields : list (string * jsval)).

(** [!v] is [negb (truthy v)]. *)
Definition truthy (v : jsval) : bool :=
  match v with
  | JUndefined => false
  | JNumber n => negb (n =? 0)
  | JString s => negb (s =? "")%string
  | JArray _ | JObject _ => true
  end.

Definition typeof (v : jsval) : string :=
  match v with
  | JUndefined => "undefined"
  | JNumber _ => "number"
  | JString _ => "string"
  | JArray _ | JObject _ => "object"
  end.

(** [v.length] read as a number; the handlers only read it on strings. *)
Definition js_length (v : jsval) : option Z :=
  match v with
  | JString s => Some (Z.of_nat (String.length s))
  | JArray l => Some (Z.of_nat (List.length l))
  | _ => None
  end.

(** [a < b] where [a] may be [undefined]: the comparison is then false. *)
Definition lt_number (a : option Z) (b : Z) : bool :=
  match a with Some x => x <? b | None => false end.

Definition Z_to_string (n : Z) : string :=
  NilZero.string_of_int (Z.to_int n).

(** ['' + v] : arrays join their elements with commas, holes and
    [undefined] printing as the empty string; plain objects print as
    ["[object Object]"]. *)
Fixpoint ToString (v : jsval) : string :=
  match v with
  | JUndefined => "undefined"
  | JNumber n => Z_to_string n
  | JString s => s
  | JArray items =>
      (fix join (l : list jsval) : string :=
         match l with
         | [] => ""
         | x :: r =>
             let sx := match x with JUndefined => "" | _ => ToString x end in
             match r with
             | [] => sx
             | _ :: _ => sx ++ "," ++ join r
             end
         end) items
  | JObject _ => "[object Object]"
  end.

(** *** Characters *)

Definition code (c : ascii) : N := N_of_ascii c.

Definition is_digit (c : ascii) : bool :=
  ((48 <=? code c) && (code c <=? 57))%N.

Definition digit_value (c : ascii) : N := (code c - 48)%N.

Definition is_upper (c : ascii) : bool :=
  ((65 <=? code c) && (code c <=? 90))%N.

Definition is_lower (c : ascii) : bool :=
  ((97 <=? code c) && (code c <=? 122))%N.

Definition hex_value (c : ascii) : option N :=
  if is_digit c then Some (digit_value c)
  else if ((97 <=? code c) && (code c <=? 102))%N then Some (code c - 87)%N
  else if ((65 <=? code c) && (code c <=? 70))%N then Some (code c - 55)%N
  else None.

Definition is_hex (c : ascii) : bool :=
  match hex_value c with Some _ => true | None => false end.

(** White space and line terminators that fit in one byte. *)
Definition is_white (c : ascii) : bool :=
  ((code c =? 9) || (code c =? 10) || (code c =? 11) || (code c =? 12)
   || (code c =? 13) || (code c =? 32))%N.

Definition upper_char (c : ascii) : ascii :=
  if is_lower c then ascii_of_N (code c - 32) else c.

Definition lower_char (c : ascii) : ascii :=
  if is_upper c then ascii_of_N (code c + 32) else c.

(** *** String methods used by the schema setter *)

Fixpoint map_string (f : ascii -> ascii) (s : string) : string :=
  match s with
  | EmptyString => EmptyString
  | String c r => String (f c) (map_string f r)
  end.

Definition toUpperCase : string -> string := map_string upper_char.
Definition toLowerCase : string -> string := map_string lower_char.

(** [s.charAt(i)] : the character at index [i] as a string, or the empty
    string past the end. *)
Fixpoint charAt (i : nat) (s : string) : string :=
  match s, i with
  | EmptyString, _ => EmptyString
  | String c _, O => String c EmptyString
  | String _ r, S j => charAt j r
  end.

(** [s.slice(start)] : the string from index [start] on. *)
Fixpoint slice (start : nat) (s : string) : string :=
  match start, s with
  | O, _ => s
  | S _, EmptyString => EmptyString
  | S n, String _ r => slice n r
  end.

Fixpoint forall_chars (p : ascii -> bool) (s : string) : bool :=
  match s with
  | EmptyString => true
  | String c r => p c && forall_chars p r
  end.

(** *** Numbers denoted by strings *)

(** The value a string converts to: not a number, an infinity, or the
    decimal [(-1)^negative * mantissa * 10^exponent].  The decimal is kept
    exact; the only effect of binary64 rounding that the handlers can
    observe is underflow to zero, see [is_zero]. *)
Inductive number : Type :=
| NaN
| Infinite (negative : bool)
| Finite (negative : bool) (mantissa : N) (exponent : Z).

Fixpoint trim_left (s : string) : string :=
  match s with
  | String c r => if is_white c then trim_left r else s
  | EmptyString => EmptyString
  end.

Fixpoint trim_right (s : string) : string :=
  match s with
  | String c r =>
      match trim_right r with
      | EmptyString => if is_white c then EmptyString else String c EmptyString
      | r' => String c r'
      end
  | EmptyString => EmptyString
  end.

Definition trim (s : string) : string := trim_right (trim_left s).

(** Longest run of decimal digits at the head of [s]: the value read so
    far, the number of digits read, and what follows. *)
Fixpoint span_digits (acc : N) (count : nat) (s : string) : N * nat * string :=
  match s with
  | String c r =>
      if is_digit c then span_digits (10 * acc + digit_value c)%N (S count) r
      else (acc, count, s)
  | EmptyString => (acc, count, s)
  end.

(** Digits in base [radix] up to the end of the string, at least one. *)
Fixpoint radix_digits (radix : N) (acc : N) (s : string) : option N :=
  match s with
  | String c r =>
      match hex_value c with
      | Some d =>
          if (d <? radix)%N then
            match r with
            | EmptyString => Some (radix * acc + d)%N
            | _ => radix_digits radix (radix * acc + d)%N r
            end
          else None
      | None => None
      end
  | EmptyString => None
  end.

(** [ExponentPart]: [e] or [E], an optional sign, at least one digit, and
    nothing after it. *)
Definition exponent_part (s : string) : option Z :=
  match s with
  | EmptyString => Some 0
  | String c r =>
      if ((code c =? 101) || (code c =? 69))%N then
        let '(neg, digits) :=
          match r with
          | String "-" r' => (true, r')
          | String "+" r' => (false, r')
          | _ => (false, r)
          end in
        match span_digits 0 0 digits with
        | (_, O, _) => None
        | (v, S _, EmptyString) => Some (if neg then - Z.of_N v else Z.of_N v)
        | (_, S _, String _ _) => None
        end
      else None
  end.

(** [StrUnsignedDecimalLiteral] *)
Definition unsigned_decimal (neg : bool) (s : string) : number :=
  if (s =? "Infinity")%string then Infinite neg
  else
    let '(ip, ni, r1) := span_digits 0 0 s in
    match r1 with
    | String "." r2 =>
        let '(m, nf, r3) := span_digits ip 0 r2 in
        match ni, nf with
        | O, O => NaN
        | _, _ =>
            match exponent_part r3 with
            | Some e => Finite neg m (e - Z.of_nat nf)
            | None => NaN
            end
        end
    | _ =>
        match ni with
        | O => NaN
        | S _ =>
            match exponent_part r1 with
            | Some e => Finite neg ip e
            | None => NaN
            end
        end
    end.

(** [Number(s)] for a string [s]. *)
Definition StringToNumber (s : string) : number :=
  match trim s with
  | EmptyString => Finite false 0 0
  | String "0" (String x r) =>
      let lit := String "0" (String x r) in
      if ((code x =? 120) || (code x =? 88))%N then
        match radix_digits 16 0 r with Some v => Finite false v 0 | None => NaN end
      else if ((code x =? 111) || (code x =? 79))%N then
        match radix_digits 8 0 r with Some v => Finite false v 0 | None => NaN end
      else if ((code x =? 98) || (code x =? 66))%N then
        match radix_digits 2 0 r with Some v => Finite false v 0 | None => NaN end
      else unsigned_decimal false lit
  | String "-" r => unsigned_decimal true r
  | String "+" r => unsigned_decimal false r
  | t => unsigned_decimal false t
  end.

(** The number is [+0] or [-0] once rounded to binary64: the mantissa is
    zero, or the magnitude is at most half the least subnormal,
    [m * 10^e <= 2^(-1075)]. *)
Definition is_zero (x : number) : bool :=
  match x with
  | Finite _ m e =>
      (m =? 0)%N
      || ((e <? 0) && (Z.of_N m * 2 ^ 1075 <=? 10 ^ (- e)))
  | _ => false
  end.

Definition is_nan (x : number) : bool :=
  match x with NaN => true | _ => false end.

(** The integer a number is equal to, when it is one. *)
Definition integer_value (x : number) : option Z :=
  match x with
  | Finite neg m e =>
      let sign := if neg then -1 else 1 in
      if 0 <=? e then Some (sign * (Z.of_N m * 10 ^ e))
      else if Z.of_N m mod 10 ^ (- e) =? 0
           then Some (sign * (Z.of_N m / 10 ^ (- e)))
           else None
  | _ => None
  end.

(** [v == 0] : a number compares by value, a string by the number it
    denotes, an array or object by the number its string form denotes;
    [undefined] is only loosely equal to [null] and [undefined]. *)
Definition loose_eq_zero (v : jsval) : bool :=
  match v with
  | JUndefined => false
  | JNumber n => n =? 0
  | JString s => is_zero (StringToNumber s)
  | JArray _ | JObject _ => is_zero (StringToNumber (ToString v))
  end.

End JS.

(* ================================================================= *)
(** ** The date library *)

Module Moment.
Import JS.

(** *** Strict parsing against a format

    [moment(input, "YYYY-MM-DD", true)] walks the tokens of the format.
    For each token it searches what is left of the input for the first
    match of the token's strict pattern, records the characters it had to
    skip, and continues after the match; a token without a match is
    recorded as unused. *)

Inductive token : Type :=
| YYYY
| MM
| DD
| Literal (c : ascii).

(** The tokens of ["YYYY-MM-DD"]. *)
Definition YYYY_MM_DD : list token :=
  [YYYY; Literal "-"; MM; Literal "-"; DD].

(** Exactly [n] digits at the head of [s]: the digits and the rest. *)
Fixpoint take_digits (n : nat) (s : string) : option (string * string) :=
  match n with
  | O => Some (EmptyString, s)
  | S n' =>
      match s with
      | String c r =>
          if is_digit c then
            match take_digits n' r with
            | Some (m, r') => Some (String c m, r')
            | None => None
            end
          else None
      | EmptyString => None
      end
  end.

(** Leftmost match of [\d{n}] : skipped prefix, match, rest. *)
Fixpoint search_digits (n : nat) (s : string)
  : option (string * string * string) :=
  match take_digits n s with
  | Some (m, r) => Some (EmptyString, m, r)
  | None =>
      match s with
      | String c r =>
          match search_digits n r with
          | Some (sk, m, r') => Some (String c sk, m, r')
          | None => None
          end
      | EmptyString => None
      end
  end.

(** Leftmost occurrence of the character [x]. *)
Fixpoint search_char (x : ascii) (s : string)
  : option (string * string * string) :=
  match s with
  | String c r =>
      if (c =? x)%char then Some (EmptyString, String c EmptyString, r)
      else
        match search_char x r with
        | Some (sk, m, r') => Some (String c sk, m, r')
        | None => None
        end
  | EmptyString => None
  end.

(** Strict patterns: [YYYY] is [\d{4}], [MM] and [DD] are [\d\d], any
    other piece of the format stands for itself. *)
Definition search_token (tok : token) (s : string)
  : option (string * string * string) :=
  match tok with
  | YYYY => search_digits 4 s
  | MM | DD => search_digits 2 s
  | Literal c => search_char c s
  end.

(** The parsing state: the input still to read, the date array fields,
    and the parsing flags that decide validity. *)
Record config : Type := mkConfig {
  rest : string;
  totalParsedInputLength : nat;
  unusedTokens : list token;
  unusedInput : list string;
  empty : bool;
  a_YEAR : option Z;
  a_MONTH : option Z;
  a_DATE : option Z
}.

Definition toInt (s : string) : Z :=
  Z.of_N (fst (fst (span_digits 0 0 s))).

(** The parse callbacks of the three tokens; months are stored from 0. *)
Definition addTimeToArrayFromToken (tok : token) (input : string) (c : config)
  : config :=
  match tok with
  | YYYY =>
      mkConfig c.(rest) c.(totalParsedInputLength) c.(unusedTokens)
               c.(unusedInput) false (Some (toInt input)) c.(a_MONTH) c.(a_DATE)
  | MM =>
      mkConfig c.(rest) c.(totalParsedInputLength) c.(unusedTokens)
               c.(unusedInput) false c.(a_YEAR) (Some (toInt input - 1)) c.(a_DATE)
  | DD =>
      mkConfig c.(rest) c.(totalParsedInputLength) c.(unusedTokens)
               c.(unusedInput) false c.(a_YEAR) c.(a_MONTH) (Some (toInt input))
  | Literal _ => c
  end.

(** One turn of the token loop (strict mode). *)
Definition parse_token (c : config) (tok : token) : config :=
  match search_token tok c.(rest) with
  | Some (skipped, parsedInput, remaining) =>
      let c1 :=
        mkConfig remaining
                 (c.(totalParsedInputLength) + String.length parsedInput)
                 c.(unusedTokens)
                 (if (0 <? String.length skipped)%nat
                  then c.(unusedInput) ++ [skipped] else c.(unusedInput))
                 c.(empty) c.(a_YEAR) c.(a_MONTH) c.(a_DATE) in
      addTimeToArrayFromToken tok parsedInput c1
  | None =>
      mkConfig c.(rest) c.(totalParsedInputLength)
               (c.(unusedTokens) ++ [tok]) c.(unusedInput)
               c.(empty) c.(a_YEAR) c.(a_MONTH) c.(a_DATE)
  end.

Definition configFromStringAndFormat (tokens : list token) (input : string)
  : config :=
  fold_left parse_token tokens
            (mkConfig input 0 [] [] true None None None).

Definition isLeapYear (year : Z) : bool :=
  ((year mod 4 =? 0) && negb (year mod 100 =? 0)) || (year mod 400 =? 0).

(** [month] counts from 0. *)
Definition daysInMonth (year month : Z) : Z :=
  let modMonth := month mod 12 in
  let year := year + (month - modMonth) / 12 in
  if modMonth =? 1 then (if isLeapYear year then 29 else 28)
  else 31 - ((modMonth mod 7) mod 2).

(** [checkOverflow] on the month and the day of the month.  Fields that
    no token filled are completed from defaults; they never decide the
    outcome, because an unused token already invalidates a strict parse. *)
Definition overflow (c : config) : bool :=
  match c.(a_YEAR), c.(a_MONTH), c.(a_DATE) with
  | Some y, Some m, Some d =>
      (m <? 0) || (11 <? m) || (d <? 1) || (daysInMonth y m <? d)
  | _, _, _ => false
  end.

(** [isValid()] of a strictly parsed moment. *)
Definition isValid_strict (input : string) (c : config) : bool :=
  negb (overflow c) && negb c.(empty)
  && (String.length input - c.(totalParsedInputLength) =? 0)%nat
  && (List.length c.(unusedTokens) =? 0)%nat.

(** [moment(v, "YYYY-MM-DD", true).isValid()] : the input is first turned
    into a string. *)
Definition strict_YYYY_MM_DD_isValid (v : jsval) : bool :=
  let input := ToString v in
  isValid_strict input (configFromStringAndFormat YYYY_MM_DD input).

(** *** Calendar dates of instants

    An instant is a number of milliseconds since the epoch.  Day numbers
    count days since 1970-01-01 in the proleptic Gregorian calendar. *)

Definition civil_from_days (z : Z) : Z * Z * Z :=
  let z := z + 719468 in
  let era := z / 146097 in
  let doe := z - era * 146097 in
  let yoe := (doe - doe / 1460 + doe / 36524 - doe / 146096) / 365 in
  let y := yoe + era * 400 in
  let doy := doe - (365 * yoe + yoe / 4 - yoe / 100) in
  let mp := (5 * doy + 2) / 153 in
  let d := doy - (153 * mp + 2) / 5 + 1 in
  let m := if mp <? 10 then mp + 3 else mp - 9 in
  (if m <=? 2 then y + 1 else y, m, d).

Definition days_from_civil (y m d : Z) : Z :=
  let y := if m <=? 2 then y - 1 else y in
  let era := y / 400 in
  let yoe := y - era * 400 in
  let doy := (153 * (if 2 <? m then m - 3 else m + 9) + 2) / 5 + d - 1 in
  let doe := yoe * 365 + yoe / 4 - yoe / 100 + doy in
  era * 146097 + doe - 719468.

Fixpoint zeros (n : nat) : string :=
  match n with
  | O => EmptyString
  | S n' => String "0" (zeros n')
  end.

Definition zeroFill (number : Z) (targetLength : nat) : string :=
  let absNumber := Z_to_string (Z.abs number) in
  let zerosToFill := (targetLength - String.length absNumber)%nat in
  (if 0 <=? number then "" else "-") ++ zeros zerosToFill ++ absNumber.

(** The ["YYYY-MM-DD"] rendering of a calendar date. *)
Definition render_YYYY_MM_DD (ymd : Z * Z * Z) : string :=
  let '(y, m, d) := ymd in
  zeroFill y 4 ++ "-" ++ zeroFill m 2 ++ "-" ++ zeroFill d 2.

(** [new Date("YYYY-MM-DD")] : a date-only text denotes midnight UTC.
    Only the canonical rendering is read; any other text (in particular
    ["Invalid date"]) yields no date. *)
Definition Date_of_string (s : string) : option Z :=
  let c := configFromStringAndFormat YYYY_MM_DD s in
  if isValid_strict s c then
    match c.(a_YEAR), c.(a_MONTH), c.(a_DATE) with
    | Some y, Some m, Some d => Some (days_from_civil y (m + 1) d * 86400000)
    | _, _, _ => None
    end
  else None.

Section Zone.

(** The offset of local time from UTC, in minutes, at a given instant. *)
Variable utcOffset : Z -> Z.

Definition local_day (t : Z) : Z := (t + utcOffset t * 60000) / 86400000.

Definition local_date (t : Z) : Z * Z * Z := civil_from_days (local_day t).

(** [m.format("YYYY-MM-DD")] for a moment [m]; [None] is an invalid
    moment. *)
Definition format_YYYY_MM_DD (m : option Z) : string :=
  match m with
  | Some t => render_YYYY_MM_DD (local_date t)
  | None => "Invalid date"
  end.

End Zone.

(** [moment().local().format()] prints the current instant with its
    offset, down to the second; the text is represented by the instant it
    denotes. *)
Definition format_default (now : Z) : Z := now - now mod 1000.

End Moment.

(* ================================================================= *)
(** ** Documents, responses and the state of one request *)

Module Model.
Import JS.

(** [mongoose.Types.ObjectId.isValid] on a string: 24 hexadecimal
    characters, the identifier format of the store the specification
    refers to. *)
Definition ObjectId_isValid (id : string) : bool :=
  (String.length id =? 24)%nat && forall_chars is_hex id.

(** The identifier a valid text denotes: hexadecimal digits compare
    without regard to case. *)
Definition ObjectId (id : string) : string := toLowerCase id.

Definition hex_char (d : N) : ascii :=
  if (d <? 10)%N then ascii_of_N (48 + d) else ascii_of_N (87 + d).

Fixpoint hex_digits (width : nat) (n : N) (acc : string) : string :=
  match width with
  | O => acc
  | S w => hex_digits w (n / 16)%N (String (hex_char (n mod 16)%N) acc)
  end.

(** Identifiers of new documents are drawn from a counter. *)
Definition ObjectId_generate (n : N) : string := hex_digits 24 n EmptyString.

(** The [User] schema: [_id] and [username] (no version key). *)
Record User : Type := mkUser {
  user_id : string;
  username : string
}.

(** Modelled from the spec: the [Exercise] schema is not among the source
    files.  An exercise refers to its user by id, has a required string
    [description], a required numeric [duration] and a [date]. *)
Record Exercise : Type := mkExercise {
  exercise_id : string;
  userId : string;
  duration : number;
  description : string;
  date : Z
}.

(** The database: both collections in insertion order, whether the
    server can be reached, and the source of new identifiers. *)
Record Database : Type := mkDatabase {
  users : list User;
  exercises : list Exercise;
  online : bool;
  nextId : N
}.

(** An [Error] object with the properties the code attaches or reads. *)
Record Error : Type := mkError {
  message : string;
  statusCode : option Z;
  code : jsval
}.

Record LogEntry : Type := mkLogEntry {
  log_description : string;
  log_duration : number;
  log_date : string
}.

(** JSON bodies, one constructor per shape the application sends. *)
Inductive Body : Type :=
| UsersBody (all : list User)
| UserBody (user : User)
| ExerciseBody (_id userId : string) (duration : number)
               (description : string) (date : string)
| LogsBody (username : string) (count : nat) (_id : string)
           (log : list LogEntry)
| ErrorBody (success : bool) (status : Z) (message : string)
| DefaultErrorPage.

Record Response : Type := mkResponse {
  status : Z;
  body : Body
}.

(** The response object [res]. *)
Record Res : Type := mkRes {
  res_statusCode : Z;
  res_sent : option Response
}.

Inductive DbCall : Type :=
| Call_User_find
| Call_User_create (value : string)
| Call_User_findById (id : string)
| Call_Exercise_create (userId : string)
| Call_Exercise_find (userId : string).

(** What a handler did, in order. *)
Inductive Event : Type :=
| Ev_db (call : DbCall)
| Ev_next (err : Error)
| Ev_json (status : Z) (body : Body).

Record State : Type := mkState {
  db : Database;
  clock : Z;
  res : Res;
  errorHandled : bool;
  trace : list Event
}.

(** *** Computations that read and write the state and may throw *)

Inductive Result (A : Type) : Type :=
| Ok (a : A)
| Throw (e : Error).
Arguments Ok {A} a.
Arguments Throw {A} e.

Definition M (A : Type) : Type := State -> Result A * State.

Definition ret {A} (a : A) : M A := fun s => (Ok a, s).

Definition bind {A B} (m : M A) (k : A -> M B) : M B :=
  fun s =>
    match m s with
    | (Ok a, s') => k a s'
    | (Throw e, s') => (Throw e, s')
    end.

Definition throw {A} (e : Error) : M A := fun s => (Throw e, s).

Definition try_catch {A} (m : M A) (handler : Error -> M A) : M A :=
  fun s =>
    match m s with
    | (Ok a, s') => (Ok a, s')
    | (Throw e, s') => handler e s'
    end.

Definition get : M State := fun s => (Ok s, s).
Definition put (s : State) : M unit := fun _ => (Ok tt, s).

Definition emit (e : Event) : M unit :=
  fun s => (Ok tt, mkState s.(db) s.(clock) s.(res) s.(errorHandled)
                           (s.(trace) ++ [e])).

Definition set_db (d : Database) : M unit :=
  fun s => (Ok tt, mkState d s.(clock) s.(res) s.(errorHandled) s.(trace)).

Definition set_res (r : Res) : M unit :=
  fun s => (Ok tt, mkState s.(db) s.(clock) r s.(errorHandled) s.(trace)).

Definition set_errorHandled : M unit :=
  fun s => (Ok tt, mkState s.(db) s.(clock) s.(res) true s.(trace)).

Module Notations.
  Notation "x <- m ;; k" := (bind m (fun x => k))
    (at level 61, m at next level, right associativity).
  Notation "m ;; k" := (bind m (fun _ => k))
    (at level 61, right associativity).
  Notation "'try' m 'catch' h" := (try_catch m h)
    (at level 62, m at level 61, h at level 61).
End Notations.

(** A request starts with a fresh response object. *)
Definition start (d : Database) (now : Z) : State :=
  mkState d now (mkRes 200 None) false [].

Definition run (h : M unit) (d : Database) (now : Z) : State :=
  snd (h (start d now)).

(** The response written to the client, if any. *)
Definition response (s : State) : option Response := s.(res).(res_sent).

(** The errors handed to [next], in order. *)
Definition forwarded (s : State) : list Error :=
  flat_map (fun e => match e with Ev_next err => [err] | _ => [] end)
           s.(trace).

(** The database calls made, in order. *)
Definition db_calls (s : State) : list DbCall :=
  flat_map (fun e => match e with Ev_db c => [c] | _ => [] end) s.(trace).

End Model.

(* ================================================================= *)
(** ** The web framework *)

Module Express.
Import JS Model Model.Notations.

Definition headersSent : M bool :=
  s <- get ;; ret (match s.(res).(res_sent) with Some _ => true | None => false end).

Definition ERR_HTTP_HEADERS_SENT : Error :=
  mkError "Cannot set headers after they are sent to the client" None
          (JString "ERR_HTTP_HEADERS_SENT").

(** [res.status(code)] *)
Definition res_status (code : Z) : M unit :=
  s <- get ;; set_res (mkRes code s.(res).(res_sent)).

(** [res.json(body)] : writes the response; throws when one has already
    been written. *)
Definition res_json (b : Body) : M unit :=
  s <- get ;;
  emit (Ev_json s.(res).(res_statusCode) b) ;;
  match s.(res).(res_sent) with
  | Some _ => throw ERR_HTTP_HEADERS_SENT
  | None =>
      set_res (mkRes s.(res).(res_statusCode)
                     (Some (mkResponse s.(res).(res_statusCode) b)))
  end.

(** [middleware/ErrorHandler] *)
Definition ErrorHandler (err : Error) : M unit :=
  let status :=
    match err.(statusCode) with
    | Some n => if n =? 0 then 500 else n
    | None => 500
    end in
  let message :=
    if (err.(message) =? "")%string then "Something went wrong"
    else err.(message) in
  res_status status ;;
  res_json (ErrorBody false status message).

(** The framework's last resort, reached when an error runs past the
    end of the stack: it can only answer if nothing was written yet. *)
Definition finalhandler (err : Error) : M unit :=
  s <- get ;;
  match s.(res).(res_sent) with
  | Some _ => ret tt
  | None =>
      let in_range n := (400 <=? n) && (n <? 600) in
      let st :=
        match err.(statusCode) with
        | Some n => if in_range n then n
                    else if in_range s.(res).(res_statusCode)
                         then s.(res).(res_statusCode) else 500
        | None => if in_range s.(res).(res_statusCode)
                  then s.(res).(res_statusCode) else 500
        end in
      set_res (mkRes st (Some (mkResponse st DefaultErrorPage)))
  end.

(** [next(err)] : the router resumes after the route and hands the error
    to the error middleware, which is the last entry of the stack; an
    exception escaping the middleware, and any error forwarded after the
    middleware has run, end in [finalhandler]. *)
Definition next (err : Error) : M unit :=
  emit (Ev_next err) ;;
  s <- get ;;
  if s.(errorHandled) then finalhandler err
  else set_errorHandled ;; (try ErrorHandler err catch finalhandler).

End Express.

(* ================================================================= *)
(** ** The object-document mapper and the database *)

Module Db.
Import JS Moment Model Model.Notations.

Definition MongoNetworkError : Error :=
  mkError "connection to the database failed" None JUndefined.

Definition CastError : Error :=
  mkError "Cast failed" None JUndefined.

Definition ValidationError : Error :=
  mkError "Validation failed" None JUndefined.

(** The server's answer to a write that breaks a unique index. *)
Definition DuplicateKeyError : Error :=
  mkError "E11000 duplicate key error" None (JNumber 11000).

(** The setter of [username] in the user schema. *)
Definition username_set (value : string) : string :=
  toUpperCase (charAt 0 value) ++ toLowerCase (slice 1 value).

Definition username_taken (d : Database) (name : string) : bool :=
  existsb (fun u => (u.(username) =? name)%string) d.(users).

Definition find_user (d : Database) (id : string) : option User :=
  find (fun u => (u.(user_id) =? ObjectId id)%string) d.(users).

Definition check_online : M unit :=
  s <- get ;; if s.(db).(online) then ret tt else throw MongoNetworkError.

(** [User.find()] *)
Definition User_find : M (list User) :=
  emit (Ev_db Call_User_find) ;;
  check_online ;;
  s <- get ;; ret s.(db).(users).

(** [User.create({ username })] : the setter runs on assignment, the
    document is validated ([required]), and the insert is refused by the
    unique index when the stored name is taken. *)
Definition User_create (value : string) : M User :=
  emit (Ev_db (Call_User_create value)) ;;
  let name := username_set value in
  if (name =? "")%string then throw ValidationError
  else
    check_online ;;
    s <- get ;;
    if username_taken s.(db) name then throw DuplicateKeyError
    else
      let user := mkUser (ObjectId_generate s.(db).(nextId)) name in
      set_db (mkDatabase (s.(db).(users) ++ [user]) s.(db).(exercises)
                         s.(db).(online) (s.(db).(nextId) + 1)) ;;
      ret user.

(** [User.findById(id)] : the id is cast to an ObjectId before the query
    is sent; a text that is no ObjectId makes the cast throw. *)
Definition User_findById (id : string) : M (option User) :=
  emit (Ev_db (Call_User_findById id)) ;;
  if negb (ObjectId_isValid id) then throw CastError
  else
    check_online ;;
    s <- get ;; ret (find_user s.(db) id).

(** Cast of a value to the schema type [Number]. *)
Definition castNumber (v : jsval) : option number :=
  match v with
  | JNumber n => Some (Finite (n <? 0) (Z.to_N (Z.abs n)) 0)
  | JString s =>
      if (s =? "")%string then None
      else if is_nan (StringToNumber s) then None
      else Some (StringToNumber s)
  | JUndefined | JArray _ | JObject _ => None
  end.

(** Cast of a value to the schema type [String]. *)
Definition castString (v : jsval) : option string :=
  match v with
  | JString s => Some s
  | JNumber n => Some (Z_to_string n)
  | JUndefined | JArray _ | JObject _ => None
  end.

(** [Exercise.create({ userId, duration, description, date })] : every
    field is cast to its schema type and the required ones must be
    present; [date] arrives as the instant it denotes, [None] standing
    for an invalid date. *)
Definition Exercise_create (uid : string) (dur desc : jsval) (dt : option Z)
  : M Exercise :=
  emit (Ev_db (Call_Exercise_create uid)) ;;
  match ObjectId_isValid uid, castNumber dur, castString desc, dt with
  | true, Some n, Some text, Some t =>
      if (text =? "")%string then throw ValidationError
      else
        check_online ;;
        s <- get ;;
        let doc := mkExercise (ObjectId_generate s.(db).(nextId))
                              (ObjectId uid) n text t in
        set_db (mkDatabase s.(db).(users) (s.(db).(exercises) ++ [doc])
                           s.(db).(online) (s.(db).(nextId) + 1)) ;;
        ret doc
  | _, _, _, _ => throw ValidationError
  end.

(** The query filter built by the logs handler. *)
Record DateFilters : Type := mkDateFilters {
  gte : option string;
  lte : option string
}.

Record Filter : Type := mkFilter {
  filter_userId : string;
  filter_date : option DateFilters
}.

(** A filter after casting: the user id and the two bounds as instants. *)
Definition cast_bound (b : option string) : option (option Z) :=
  match b with
  | None => Some None
  | Some text =>
      match Date_of_string text with
      | Some t => Some (Some t)
      | None => None
      end
  end.

Definition cast_filter (f : Filter) : option (string * option Z * option Z) :=
  if ObjectId_isValid f.(filter_userId) then
    match f.(filter_date) with
    | None => Some (ObjectId f.(filter_userId), None, None)
    | Some df =>
        match cast_bound df.(gte), cast_bound df.(lte) with
        | Some lo, Some hi => Some (ObjectId f.(filter_userId), lo, hi)
        | _, _ => None
        end
    end
  else None.

Definition matches (q : string * option Z * option Z) (e : Exercise) : bool :=
  let '(uid, lo, hi) := q in
  (e.(userId) =? uid)%string
  && match lo with Some a => a <=? e.(date) | None => true end
  && match hi with Some b => e.(date) <=? b | None => true end.

(** What [.limit(v)] makes of its argument. *)
Inductive Limit : Type :=
| Rejected
| Unlimited
| AtMost (n : nat).

Definition apply_limit {A} (l : Limit) (xs : list A) : list A :=
  match l with
  | AtMost n => firstn n xs
  | Unlimited | Rejected => xs
  end.

Section Driver.

(** How the driver and the server treat a limit that is not a positive
    integer (zero, negative, fractional, infinite or not numeric at
    all). *)
Variable driver_limit : jsval -> Limit.

(** [.limit(v)] : a string is cast to a number first, and the cast throws
    on a text that denotes no number. *)
Definition Query_limit (v : jsval) : Limit :=
  match v with
  | JNumber n => if 0 <? n then AtMost (Z.to_nat n) else driver_limit v
  | JString s =>
      if is_nan (StringToNumber s) then Rejected
      else
        match integer_value (StringToNumber s) with
        | Some k => if (0 <? k) && (k <? 2 ^ 53) then AtMost (Z.to_nat k)
                    else driver_limit v
        | None => driver_limit v
        end
  | JUndefined | JArray _ | JObject _ => driver_limit v
  end.

(** [Exercise.find(filter).limit(v)] : the matching documents in
    insertion order, cut at the limit. *)
Definition Exercise_find (f : Filter) (v : jsval) : M (list Exercise) :=
  emit (Ev_db (Call_Exercise_find f.(filter_userId))) ;;
  match Query_limit v, cast_filter f with
  | Rejected, _ => throw CastError
  | _, None => throw CastError
  | l, Some q =>
      check_online ;;
      s <- get ;;
      ret (apply_limit l (filter (matches q) s.(db).(exercises)))
  end.

End Driver.

End Db.

(* ================================================================= *)
(** ** The application: [index.js] *)

Module App.
Import JS Moment Model Model.Notations Express Db.

Definition generateError (message : string) (statusCode : Z) : Error :=
  mkError message (Some statusCode) JUndefined.

(** The two kinds of argument [moment(...)] receives in the handlers: a
    value taken from the request, or a date read from a document. *)
Inductive MomentInput : Type :=
| OfValue (v : jsval)
| OfDate (t : Z).

Section Handlers.

(** Local time: minutes east of UTC at an instant. *)
Variable utcOffset : Z -> Z.

(** [moment(v)] without a format, for a value taken from the request:
    the instant it is read as, or [None] when the result is invalid. *)
Variable moment_parse : jsval -> option Z.

Variable driver_limit : jsval -> Limit.

Definition moment (i : MomentInput) : option Z :=
  match i with
  | OfValue v => moment_parse v
  | OfDate t => Some t
  end.

(** *** GET /api/users *)

Definition get_users : M unit :=
  try
    (users <- User_find ;;
     res_status 200 ;;
     res_json (UsersBody users))
  catch
    (fun _ =>
       next (generateError
               "Error retrieving users, could not connect to MongoDB." 500)).

(** *** POST /api/users *)

(** [!username || typeof username !== "string" || username.length < 3] *)
Definition invalid_username (username : jsval) : bool :=
  negb (truthy username)
  || negb (typeof username =? "string")%string
  || lt_number (js_length username) 3.

Definition post_users_catch (err : Error) : M unit :=
  let is_11000 :=
    match err.(code) with JNumber n => n =? 11000 | _ => false end in
  let messsage := if is_11000 then "User already exists" else "Server error" in
  let statusCode := if is_11000 then 400 else 500 in
  next (generateError messsage statusCode).

Definition post_users (username : jsval) : M unit :=
  try
    (if invalid_username username then
       next (generateError
               "Invalid username. It must be a string with at least 3 characters."
               400)
     else
       (* [username] is a string here *)
       user <- User_create (ToString username) ;;
       res_status 201 ;;
       res_json (UserBody user))
  catch post_users_catch.

(** *** POST /api/users/:_id/exercises *)

(** [moment(date, "YYYY-MM-DD", true).isValid()] *)
Definition isValidFormat (date : jsval) : bool :=
  strict_YYYY_MM_DD_isValid date.

Definition post_exercises (userId : string) (duration description date : jsval)
  : M unit :=
  try
    (if negb (ObjectId_isValid userId) then
       next (generateError
               "Invalid or missing ID. The ID must be exactly 24 characters long."
               400)
     else
       user <- User_findById userId ;;
       match user with
       | None =>
           next (generateError
                   "User not found. Please check the ID and try again." 404)
       | Some _ =>
           if negb (truthy description) || negb (truthy duration) then
             next (generateError
                     "Description and duration are required. Please provide them and try again."
                     400)
           else if truthy date && negb (isValidFormat date) then
             next (generateError
                     "Invalid date. Please use the yyyy-mm-dd format and ensure date is a valid calendar date."
                     400)
           else
             s <- get ;;
             let date :=
               if truthy date then moment (OfValue date)
               else Some (format_default s.(clock)) in
             addExercise <- Exercise_create userId duration description date ;;
             let formattedDate :=
               ExerciseBody addExercise.(exercise_id) addExercise.(Model.userId)
                 addExercise.(Model.duration) addExercise.(Model.description)
                 (format_YYYY_MM_DD utcOffset
                    (moment (OfDate addExercise.(Model.date)))) in
             res_status 200 ;;
             res_json formattedDate
       end)
  catch (fun _ => next (generateError "Server error" 500)).

(** *** GET /api/users/:_id/logs *)

Definition formatDate (date : MomentInput) : string :=
  format_YYYY_MM_DD utcOffset (moment date).

(** [!limit ? (limit = 20) : limit == 0 ? (limit = 1) : limit] *)
Definition effective_limit (limit : jsval) : jsval :=
  if negb (truthy limit) then JNumber 20
  else if loose_eq_zero limit then JNumber 1
  else limit.

Definition build_filter (userId : string) (from to : jsval) : Filter :=
  let dateFilters :=
    mkDateFilters
      (if truthy from then Some (formatDate (OfValue from)) else None)
      (if truthy to then Some (formatDate (OfValue to)) else None) in
  mkFilter userId
    (match dateFilters.(gte), dateFilters.(lte) with
     | None, None => None
     | _, _ => Some dateFilters
     end).

Definition log_entry (e : Exercise) : LogEntry :=
  mkLogEntry e.(Model.description) e.(Model.duration)
             (formatDate (OfDate e.(Model.date))).

Definition get_logs (userId : string) (from to limit : jsval) : M unit :=
  try
    (user <- User_findById userId ;;
     match user with
     | None =>
         next (generateError
                 "User not found. Please check the ID and try again." 404)
     | Some user =>
         let filter := build_filter userId from to in
         let limit := effective_limit limit in
         exercises <- Exercise_find driver_limit filter limit ;;
         (if (List.length exercises =? 0)%nat then
            if truthy from || truthy to then
              next (generateError
                      "No exercises found for the specified dates. Please adjust the date range and try again."
                      404)
            else
              next (generateError
                      "Exercises not found for this user. Please check the exercises of another user."
                      404)
          else ret tt) ;;
         let exercises := map log_entry exercises in
         res_status 200 ;;
         res_json (LogsBody user.(username) (List.length exercises) userId
                            exercises)
     end)
  catch (fun _ => next (generateError "Error retrieving exercises" 500)).

(** *** Any other request: [app.all("*")] *)

Definition fallback (originalUrl : string) : M unit :=
  let currentPath := originalUrl in
  if (currentPath =? "/api/users//exercises")%string then
    next (generateError
            "Invalid ID format. Ensure the ID is exactly 24 characters long and corresponds to an existing user."
            400)
  else
    next (generateError
            ("The requested path '" ++ currentPath
             ++ "' was not found on this server.") 404).

(** *** Requests over time *)

Inductive Request : Type :=
| GET_users
| POST_users (username : jsval)
| POST_exercises (_id : string) (duration description date : jsval)
| GET_logs (_id : string) (from to limit : jsval)
| Unrouted (originalUrl : string).

Definition handle (r : Request) : M unit :=
  match r with
  | GET_users => get_users
  | POST_users username => post_users username
  | POST_exercises id duration description date =>
      post_exercises id duration description date
  | GET_logs id from to limit => get_logs id from to limit
  | Unrouted url => fallback url
  end.

(** A request arrives at some instant and finds the database reachable
    or not. *)
Record Arrival : Type := mkArrival {
  request : Request;
  at_time : Z;
  db_up : bool
}.

(** The database after a request has been served. *)
Definition serve (d : Database) (a : Arrival) : Database :=
  db (run (handle a.(request))
          (mkDatabase d.(users) d.(exercises) a.(db_up) d.(nextId))
          a.(at_time)).

End Handlers.

(** *** The route table *)

(** A route path is a list of segments: fixed text or a named
    parameter. *)
Inductive segment : Type :=
| Fixed (text : string)
| Param (name : string).

Inductive route : Type :=
| Route_index
| Route_get_users
| Route_post_users
| Route_post_exercises
| Route_get_logs.

Definition routes : list (string * list segment * route) :=
  [ ("GET", [], Route_index);
    ("GET", [Fixed "api"; Fixed "users"], Route_get_users);
    ("POST", [Fixed "api"; Fixed "users"], Route_post_users);
    ("POST", [Fixed "api"; Fixed "users"; Param "_id"; Fixed "exercises"],
     Route_post_exercises);
    ("GET", [Fixed "api"; Fixed "users"; Param "_id"; Fixed "logs"],
     Route_get_logs) ].

(** The path of a request: its URL up to the query string. *)
Fixpoint path_of (url : string) : string :=
  match url with
  | String c r => if (c =? "?")%char then EmptyString else String c (path_of r)
  | EmptyString => EmptyString
  end.

(** The pieces of a path between slashes. *)
Fixpoint split_path (s : string) : list string :=
  match s with
  | EmptyString => [EmptyString]
  | String c r =>
      if (c =? "/")%char then EmptyString :: split_path r
      else
        match split_path r with
        | piece :: pieces => String c piece :: pieces
        | [] => [String c EmptyString]
        end
  end.

(** The segments after the leading slash, a single trailing slash being
    optional. *)
Definition segments_of (path : string) : list string :=
  let pieces := match split_path path with _ :: r => r | [] => [] end in
  match rev pieces with
  | EmptyString :: r => rev r
  | _ => pieces
  end.

(** Fixed text matches without regard to case; a parameter matches one
    or more characters. *)
Fixpoint match_segments (pattern : list segment) (pieces : list string) : bool :=
  match pattern, pieces with
  | [], [] => true
  | Fixed text :: pattern', piece :: pieces' =>
      (toLowerCase piece =? toLowerCase text)%string
      && match_segments pattern' pieces'
  | Param _ :: pattern', piece :: pieces' =>
      negb (piece =? "")%string && match_segments pattern' pieces'
  | _, _ => false
  end.

Definition path_matches (pattern : list segment) (path : string) : bool :=
  match_segments pattern (segments_of path).

(** No path of the route table matches the path of the URL. *)
Definition unmatched (url : string) : bool :=
  forallb (fun r => negb (path_matches (snd (fst r)) (path_of url))) routes.

End App.

(* ================================================================= *)
(** ** The specification's reading of the date check *)

Module Spec.
Import JS.

Definition leap_year (y : Z) : bool :=
  (y mod 4 =? 0) && (negb (y mod 100 =? 0) || (y mod 400 =? 0)).

(** Days of month [m], counted from 1, in year [y]. *)
Definition days_in_month (y m : Z) : Z :=
  if m =? 2 then (if leap_year y then 29 else 28)
  else if (m =? 4) || (m =? 6) || (m =? 9) || (m =? 11) then 30
  else 31.

Definition decimal (digits : list ascii) : Z :=
  fold_left (fun acc c => 10 * acc + Z.of_N (digit_value c)) digits 0.

(** A four-digit year, a two-digit month and a two-digit day separated
    by hyphens, denoting a day that exists in the calendar. *)
Definition isValidCalendarDate (value : string) : bool :=
  match list_ascii_of_string value with
  | [y1; y2; y3; y4; h1; m1; m2; h2; d1; d2] =>
      forallb is_digit [y1; y2; y3; y4; m1; m2; d1; d2]
      && (h1 =? "-")%char && (h2 =? "-")%char
      && let y := decimal [y1; y2; y3; y4] in
         let m := decimal [m1; m2] in
         let d := decimal [d1; d2] in
         (1 <=? m) && (m <=? 12) && (1 <=? d) && (d <=? days_in_month y m)
  | _ => false
  end.

End Spec.

(* ================================================================= *)
(** ** A concrete server, for examples *)

Module Scenario.
Import JS Moment Model Db App.

(** A server whose local time is UTC. *)
Definition utc (_ : Z) : Z := 0.

(** Reading of request values as dates, restricted to date-only ISO
    text, which denotes midnight of that day. *)
Definition moment_date_only (v : jsval) : option Z :=
  match v with
  | JString s => Date_of_string s
  | _ => None
  end.

(** A driver that follows the database manual on integers (zero lifts
    the limit, a negative limit counts as its magnitude) and refuses
    anything else. *)
Definition driver (v : jsval) : Limit :=
  let k :=
    match v with
    | JNumber n => Some n
    | JString s => integer_value (StringToNumber s)
    | _ => None
    end in
  match k with
  | Some 0 => Unlimited
  | Some n => AtMost (Z.to_nat (Z.abs n))
  | None => Rejected
  end.

Definition empty_db : Database := mkDatabase [] [] true 0.

Definition john_id : string := "000000000000000000000000".

Definition john : User := mkUser john_id "John".

(** 2024-01-01T00:00:00.000Z *)
Definition new_year_2024 : Z := 1704067200000.

Definition morning_run : Exercise :=
  mkExercise "000000000000000000000001" john_id (Finite false 30 0) "run"
             new_year_2024.

Definition john_only : Database := mkDatabase [john] [] true 1.

Definition john_ran_once : Database :=
  mkDatabase [john] [morning_run] true 2.

End Scenario.

(* ================================================================= *)
(** ** Notions the properties are stated with *)

Module Notions.
Import JS Moment Model.

(** The text of a date, character by character. *)
Definition ymd_string (y1 y2 y3 y4 m1 m2 d1 d2 : ascii) : string :=
  String y1 (String y2 (String y3 (String y4 (String "-"
    (String m1 (String m2 (String "-" (String d1 (String d2 ""))))))))).

(** *** Invariants of the user collection *)

(** A computation that leaves the user collection as it found it. *)
Definition keeps_users {A} (m : M A) : Prop :=
  forall s, users (db (snd (m s))) = users (db s).

(** No two stored users share a name. *)
Definition distinct_usernames (d : Database) : Prop :=
  NoDup (map username (users d)).

(** A computation under which user names stay distinct. *)
Definition stays_distinct {A} (m : M A) : Prop :=
  forall s, distinct_usernames (db s) -> distinct_usernames (db (snd (m s))).

(** *** Finite checks *)

(** [p] holds on [count] consecutive integers from [i] on. *)
Fixpoint all_from (count : nat) (i : Z) (p : Z -> bool) : bool :=
  match count with
  | O => true
  | S c => p i && all_from c (i + 1) p
  end.

(** The four characters [zeroFill y 4] prints are the decimal digits of
    [y]; likewise for two. *)
Definition four_digits_of (y : Z) : bool :=
  match zeroFill y 4 with
  | String a (String b (String c (String d EmptyString))) =>
      forallb is_digit [a; b; c; d] && (Spec.decimal [a; b; c; d] =? y)
  | _ => false
  end.

Definition two_digits_of (n : Z) : bool :=
  match zeroFill n 2 with
  | String a (String b EmptyString) =>
      forallb is_digit [a; b] && (Spec.decimal [a; b] =? n)
  | _ => false
  end.

End Notions.

(* ================================================================= *)
(** ** Notions for the behaviour of the application as a whole *)

Module Behaviour.
Import JS Moment Model Db App.

(** The status codes each route can answer with. *)
Definition statuses (req : Request) : list Z :=
  match req with
  | GET_users => [200; 500]
  | POST_users _ => [201; 400; 500]
  | POST_exercises _ _ _ _ => [200; 400; 404; 500]
  | GET_logs _ _ _ _ => [200; 404; 500]
  | Unrouted _ => [400; 404]
  end.

(** An answer is either a success below 400 with a data body, or an
    error of 400 and above whose body is [{success: false, status,
    message}] with the status of the response and a message. *)
Definition uniform (r : Response) : Prop :=
  match body r with
  | ErrorBody success st msg =>
      success = false /\ st = status r /\ msg <> "" /\ 400 <= status r
  | DefaultErrorPage => False
  | UsersBody _ | UserBody _ | ExerciseBody _ _ _ _ _ | LogsBody _ _ _ _ =>
      status r < 400
  end.

(** The first body handed to [res.json] in a trace, with the status set
    at that moment. *)
Fixpoint first_json (events : list Event) : option Response :=
  match events with
  | [] => None
  | Ev_json st b :: _ => Some (mkResponse st b)
  | _ :: rest => first_json rest
  end.

(** The facts that hold of the final state [s] of a request [req] served
    on the database [d]. *)
Definition run_facts (req : Request) (d : Database) (s : State) : Prop :=
  (exists r,
      response s = Some r
      /\ In (status r) (statuses req)
      /\ uniform r
      /\ (400 <= status r -> db s = d))
  /\ response s = first_json (trace s)
  /\ (List.length (forwarded s) <= 2)%nat
  /\ (forall err, In err (forwarded s) ->
        (statusCode err = Some 400 \/ statusCode err = Some 404
         \/ statusCode err = Some 500)
        /\ message err <> ""
        /\ code err = JUndefined).

(** A computation that leaves the database as it found it. *)
Definition keeps_db {A} (m : M A) : Prop :=
  forall s, db (snd (m s)) = db s.

(** The exercises stored for a user, in insertion order. *)
Definition exercises_of (d : Database) (id : string) : list Exercise :=
  filter (fun e => (Model.userId e =? ObjectId id)%string) (exercises d).

(** Every stored exercise refers to a stored user. *)
Definition exercises_have_users (d : Database) : Prop :=
  forall e, In e (exercises d) ->
            exists u, In u (users d) /\ user_id u = Model.userId e.

(** Every stored user name is in the form the setter produces. *)
Definition names_normalized (d : Database) : Prop :=
  forall u, In u (users d) -> username_set (username u) = username u.

(** The database seen by a request that finds it reachable or not. *)
Definition seen (d : Database) (up : bool) : Database :=
  mkDatabase (users d) (exercises d) up (nextId d).

(** The requests whose handler reaches a database call: every check made
    before the first call has passed. *)
Definition needs_database (req : Request) : bool :=
  match req with
  | GET_users => true
  | POST_users username => negb (invalid_username username)
  | POST_exercises id _ _ _ => ObjectId_isValid id
  | GET_logs _ _ _ _ => true
  | Unrouted _ => false
  end.

End Behaviour.

(* ================================================================= *)
(** * Properties of the handlers *)

Import JS Moment Model Model.Notations Db Express App Notions.

(** Runs a handler on a symbolic state as far as the known facts allow. *)
Ltac exec :=
  cbv [run start response forwarded db_calls
       post_exercises post_users get_logs get_users fallback post_users_catch
       User_findById User_find User_create Exercise_create Exercise_find
       check_online next ErrorHandler finalhandler res_json res_status
       headersSent generateError
       bind ret throw try_catch get put emit set_db set_res set_errorHandled];
  cbn [fst snd db clock res errorHandled trace res_statusCode res_sent
       message statusCode code negb andb orb app flat_map
       users exercises online nextId].

(* ================================================================= *)
(** ** The definitions on concrete inputs *)

Example loose_zero_texts :
  map loose_eq_zero
      [JString "0"; JString "00"; JString " 0 "; JString "0.0"; JString "-0";
       JString "0x0"; JString "1e-400"; JArray [JString "0"]; JArray [JString ""]]
  = [true; true; true; true; true; true; true; true; true].
Proof. reflexivity. Qed.

Example loose_nonzero_texts :
  map loose_eq_zero
      [JString "5"; JString "-3"; JString "abc"; JString "0x1f";
       JString "1e-300"; JUndefined; JObject []; JArray [JString "5"]]
  = [false; false; false; false; false; false; false; false].
Proof. reflexivity. Qed.

Example effective_limit_examples :
  map effective_limit
      [JUndefined; JString ""; JString "0"; JString "5"; JString "abc";
       JString "-3"]
  = [JNumber 20; JNumber 20; JNumber 1; JString "5"; JString "abc";
     JString "-3"].
Proof. reflexivity. Qed.

Example ObjectId_isValid_examples :
  map ObjectId_isValid
      ["123"; ""; "5f8d0d55b54764421b7156c1"; "5F8D0D55B54764421B7156C1";
       "5f8d0d55b54764421b7156cz"; "5f8d0d55b54764421b7156c12"]
  = [false; false; true; true; false; false].
Proof. reflexivity. Qed.

Example isValidFormat_examples :
  map (fun text => isValidFormat (JString text))
      ["2024-02-29"; "2023-02-29"; "1900-02-29"; "2000-02-29"; "2024-04-31";
       "2024-13-01"; "2024-00-10"; "2024-01-00"; "2024-1-01"; " 2024-01-01";
       "2024-01-01T00:00"; "20240101"; ""]
  = [true; false; false; true; false;
     false; false; false; false; false;
     false; false; false].
Proof. reflexivity. Qed.

Example route_table_examples :
  map unmatched
      ["/"; "/api/users"; "/API/Users/"; "/api/users?limit=1";
       "/api/users/5f8d0d55b54764421b7156c1/logs?limit=0";
       "/api/users/123/exercises/";
       "/api/users//exercises"; "/api/users//logs"; "/api/user"; "/api/users/1/2/logs"]
  = [false; false; false; false; false; false; true; true; true; true].
Proof. reflexivity. Qed.

Example local_date_examples :
  (* 2024-01-01T00:00:00Z seen from UTC, from UTC-5 and from UTC+9 *)
  map (fun offset => format_YYYY_MM_DD (fun _ => offset)
                       (Some Scenario.new_year_2024))
      [0; -300; 540]
  = ["2024-01-01"; "2023-12-31"; "2024-01-01"].
Proof. reflexivity. Qed.

(* ================================================================= *)
(** ** The strict date parser *)

Lemma string_length_app (a b : string) :
  String.length (a ++ b) = (String.length a + String.length b)%nat.
Proof. induction a; simpl; congruence. Qed.

Lemma take_digits_spec n : forall s m r,
  take_digits n s = Some (m, r) ->
  s = m ++ r /\ String.length m = n /\ forall_chars is_digit m = true.
Proof.
  induction n as [|n IH]; intros s m r H; simpl in H.
  - inversion H; subst. auto.
  - destruct s as [|c s']; [discriminate|].
    destruct (is_digit c) eqn:Hc; [|discriminate].
    destruct (take_digits n s') as [[m' r']|] eqn:Ht; [|discriminate].
    inversion H; subst. destruct (IH _ _ _ Ht) as (-> & Hl & Hd).
    simpl. rewrite Hc, Hl, Hd. auto.
Qed.

Lemma search_digits_spec n : forall s sk m r,
  search_digits n s = Some (sk, m, r) ->
  s = sk ++ m ++ r /\ String.length m = n /\
  (sk = "" -> take_digits n s = Some (m, r)).
Proof.
  induction s as [|c s IH]; intros sk m r H.
  - destruct n; simpl in H; [|discriminate]. inversion H; subst. auto.
  - cbn [search_digits] in H.
    destruct (take_digits n (String c s)) as [[m' r']|] eqn:Ht.
    + inversion H; subst. destruct (take_digits_spec _ _ _ _ Ht) as (E & L & _).
      auto.
    + destruct (search_digits n s) as [[[sk' m'] r']|] eqn:Hs; [|discriminate].
      inversion H; subst. destruct (IH _ _ _ eq_refl) as (E & L & _).
      split; [simpl; congruence|]. split; [exact L|]. discriminate.
Qed.

Lemma search_char_spec x : forall s sk m r,
  search_char x s = Some (sk, m, r) ->
  s = sk ++ m ++ r /\ m = String x "".
Proof.
  induction s as [|c s IH]; intros sk m r H; simpl in H; [discriminate|].
  destruct (Ascii.eqb_spec c x).
  - inversion H; subst. auto.
  - destruct (search_char x s) as [[[sk' m'] r']|]; [|discriminate].
    inversion H; subst. destruct (IH _ _ _ eq_refl) as (E & L).
    split; [simpl; congruence|auto].
Qed.

Lemma take_digits4_inv s m r :
  take_digits 4 s = Some (m, r) ->
  exists a b c d,
    s = String a (String b (String c (String d r)))
    /\ m = String a (String b (String c (String d "")))
    /\ is_digit a = true /\ is_digit b = true
    /\ is_digit c = true /\ is_digit d = true.
Proof.
  intros H. cbn in H.
  destruct s as [|a [|b [|c [|d s]]]]; cbn in H; try discriminate;
    repeat match type of H with
           | context [if is_digit ?x then _ else _] =>
               destruct (is_digit x) eqn:?; try discriminate
           end; try discriminate.
  inversion H; subst. exists a, b, c, d. auto 10.
Qed.

Lemma take_digits2_inv s m r :
  take_digits 2 s = Some (m, r) ->
  exists a b,
    s = String a (String b r) /\ m = String a (String b "")
    /\ is_digit a = true /\ is_digit b = true.
Proof.
  intros H. cbn in H.
  destruct s as [|a [|b s]]; cbn in H; try discriminate;
    repeat match type of H with
           | context [if is_digit ?x then _ else _] =>
               destruct (is_digit x) eqn:?; try discriminate
           end; try discriminate.
  inversion H; subst. exists a, b. auto.
Qed.

Lemma unused_stays (s : string) : forall toks c,
  unusedTokens c <> [] ->
  isValid_strict s (fold_left parse_token toks c) = false.
Proof.
  induction toks as [|t toks IH]; intros c Hc.
  - cbn [fold_left]. unfold isValid_strict.
    destruct (unusedTokens c); [congruence|]. apply andb_false_r.
  - cbn [fold_left]. apply IH. unfold parse_token.
    destruct (search_token t (rest c)) as [[[sk m] r]|]; cbn.
    + destruct t; cbn; exact Hc.
    + destruct (unusedTokens c); cbn; congruence.
Qed.

Lemma strict_shape s :
  isValid_strict s (configFromStringAndFormat YYYY_MM_DD s) = true ->
  exists y1 y2 y3 y4 m1 m2 d1 d2,
    s = ymd_string y1 y2 y3 y4 m1 m2 d1 d2
    /\ forallb is_digit [y1; y2; y3; y4; m1; m2; d1; d2] = true.
Proof.
  unfold configFromStringAndFormat, YYYY_MM_DD. intros H.
  cbn [fold_left] in H.
  unfold parse_token at 5 in H. cbn [rest search_token] in H.
  destruct (search_digits 4 s) as [[[sk1 p1] r1]|] eqn:E1.
  2:{ change (isValid_strict s (fold_left parse_token [Literal "-"; MM; Literal "-"; DD]
        (mkConfig s 0 ([] ++ [YYYY]) [] true None None None)) = true) in H.
      rewrite unused_stays in H; [discriminate|cbn; discriminate]. }
  cbn in H.
  unfold parse_token at 4 in H. cbn [rest search_token] in H.
  destruct (search_char "-" r1) as [[[sk2 p2] r2]|] eqn:E2.
  2:{ match type of H with isValid_strict _ (parse_token (parse_token (parse_token ?c _) _) _) = _ =>
        change (isValid_strict s (fold_left parse_token [MM; Literal "-"; DD] c) = true) in H end.
      rewrite unused_stays in H; [discriminate|cbn; discriminate]. }
  cbn in H.
  unfold parse_token at 3 in H. cbn [rest search_token] in H.
  destruct (search_digits 2 r2) as [[[sk3 p3] r3]|] eqn:E3.
  2:{ match type of H with isValid_strict _ (parse_token (parse_token ?c _) _) = _ =>
        change (isValid_strict s (fold_left parse_token [Literal "-"; DD] c) = true) in H end.
      rewrite unused_stays in H; [discriminate|cbn; discriminate]. }
  cbn in H.
  unfold parse_token at 2 in H. cbn [rest search_token] in H.
  destruct (search_char "-" r3) as [[[sk4 p4] r4]|] eqn:E4.
  2:{ match type of H with isValid_strict _ (parse_token ?c _) = _ =>
        change (isValid_strict s (fold_left parse_token [DD] c) = true) in H end.
      rewrite unused_stays in H; [discriminate|cbn; discriminate]. }
  cbn in H.
  unfold parse_token in H. cbn [rest search_token] in H.
  destruct (search_digits 2 r4) as [[[sk5 p5] r5]|] eqn:E5.
  2:{ unfold isValid_strict in H. cbn [unusedTokens] in H.
      rewrite List.length_app in H. cbn [List.length] in H.
      rewrite Nat.add_comm in H. cbn in H. rewrite andb_false_r in H. discriminate. }
  unfold isValid_strict in H. cbn in H.
  apply andb_prop in H. destruct H as [H _].
  apply andb_prop in H. destruct H as [_ H].
  apply Nat.eqb_eq in H.
  destruct (search_digits_spec _ _ _ _ _ E1) as (S1 & L1 & T1).
  destruct (search_char_spec _ _ _ _ _ E2) as (S2 & L2).
  destruct (search_digits_spec _ _ _ _ _ E3) as (S3 & L3 & T3).
  destruct (search_char_spec _ _ _ _ _ E4) as (S4 & L4).
  destruct (search_digits_spec _ _ _ _ _ E5) as (S5 & L5 & T5).
  assert (Hlen : String.length s =
            (String.length sk1 + 4 + (String.length sk2 + 1 + (String.length sk3 + 2
             + (String.length sk4 + 1 + (String.length sk5 + 2 + String.length r5)))))%nat).
  { rewrite S1, S2, S3, S4, S5, L2, L4. rewrite !string_length_app. cbn [String.length]. lia. }
  rewrite L1, L2, L3, L4, L5 in H. cbn [String.length] in H.
  assert (Z1 : sk1 = "") by (destruct sk1; [reflexivity|cbn in Hlen; lia]).
  assert (Z2 : sk2 = "") by (destruct sk2; [reflexivity|cbn in Hlen; lia]).
  assert (Z3 : sk3 = "") by (destruct sk3; [reflexivity|cbn in Hlen; lia]).
  assert (Z4 : sk4 = "") by (destruct sk4; [reflexivity|cbn in Hlen; lia]).
  assert (Z5 : sk5 = "") by (destruct sk5; [reflexivity|cbn in Hlen; lia]).
  assert (Z6 : r5 = "") by (destruct r5; [reflexivity|cbn in Hlen; lia]).
  subst sk1 sk2 sk3 sk4 sk5 r5 p2 p4. cbn in S2, S4.
  specialize (T1 eq_refl). specialize (T3 eq_refl). specialize (T5 eq_refl).
  destruct (take_digits4_inv _ _ _ T1) as (y1 & y2 & y3 & y4 & Es & _ & ? & ? & ? & ?).
  destruct (take_digits2_inv _ _ _ T3) as (m1 & m2 & Er2 & _ & ? & ?).
  destruct (take_digits2_inv _ _ _ T5) as (d1 & d2 & Er4 & _ & ? & ?).
  exists y1, y2, y3, y4, m1, m2, d1, d2. split.
  - unfold ymd_string. rewrite Es, S2, Er2, S4, Er4. reflexivity.
  - cbn. repeat match goal with Hd : is_digit _ = true |- _ => rewrite Hd; clear Hd end. reflexivity.
Qed.


Lemma leap_agree y : isLeapYear y = Spec.leap_year y.
Proof.
  unfold isLeapYear, Spec.leap_year.
  destruct (Z.eqb_spec (y mod 4) 0), (Z.eqb_spec (y mod 100) 0),
    (Z.eqb_spec (y mod 400) 0); cbn; try reflexivity;
    exfalso; Z.div_mod_to_equations; lia.
Qed.

Lemma daysInMonth_agree y m :
  1 <= m <= 12 -> daysInMonth y (m - 1) = Spec.days_in_month y m.
Proof.
  intros Hm. unfold daysInMonth, Spec.days_in_month.
  rewrite Z.mod_small by lia.
  rewrite Z.sub_diag, Z.div_0_l, Z.add_0_r by lia.
  rewrite leap_agree.
  assert (m = 1 \/ m = 2 \/ m = 3 \/ m = 4 \/ m = 5 \/ m = 6 \/ m = 7
          \/ m = 8 \/ m = 9 \/ m = 10 \/ m = 11 \/ m = 12) as Hc by lia.
  repeat (destruct Hc as [-> | Hc]; [reflexivity|]). subst. reflexivity.
Qed.

Lemma overflow_range y m d :
  negb ((m - 1 <? 0) || (11 <? m - 1) || (d <? 1) || (daysInMonth y (m - 1) <? d))
  = (1 <=? m) && (m <=? 12) && (1 <=? d) && (d <=? Spec.days_in_month y m).
Proof.
  destruct (Z.leb_spec 1 m), (Z.leb_spec m 12), (Z.ltb_spec (m - 1) 0),
    (Z.ltb_spec 11 (m - 1)); try lia; cbn [negb orb andb]; try reflexivity.
  rewrite daysInMonth_agree by lia.
  destruct (Z.ltb_spec d 1), (Z.leb_spec 1 d),
    (Z.ltb_spec (Spec.days_in_month y m) d),
    (Z.leb_spec d (Spec.days_in_month y m)); try lia; reflexivity.
Qed.

Lemma toInt2 a b : is_digit a = true -> is_digit b = true ->
  toInt (String a (String b "")) = Spec.decimal [a; b].
Proof.
  intros Ha Hb. unfold toInt, Spec.decimal. cbn [span_digits fold_left].
  rewrite Ha, Hb. cbn [fst]. lia.
Qed.

Lemma toInt4 a b c d :
  is_digit a = true -> is_digit b = true -> is_digit c = true -> is_digit d = true ->
  toInt (String a (String b (String c (String d "")))) = Spec.decimal [a; b; c; d].
Proof.
  intros Ha Hb Hc Hd. unfold toInt, Spec.decimal. cbn [span_digits fold_left].
  rewrite Ha, Hb, Hc, Hd. cbn [fst]. lia.
Qed.

Lemma step_YYYY a b c d r n ut ui e y m dd :
  is_digit a = true -> is_digit b = true -> is_digit c = true -> is_digit d = true ->
  parse_token (mkConfig (String a (String b (String c (String d r)))) n ut ui e y m dd) YYYY
  = mkConfig r (n + 4) ut ui false (Some (Spec.decimal [a; b; c; d])) m dd.
Proof.
  intros Ha Hb Hc Hd. unfold parse_token.
  cbn [rest search_token search_digits take_digits]. rewrite Ha, Hb, Hc, Hd.
  cbn -[toInt Spec.decimal Nat.add]. now rewrite toInt4.
Qed.

Lemma step_MM a b r n ut ui e y m dd :
  is_digit a = true -> is_digit b = true ->
  parse_token (mkConfig (String a (String b r)) n ut ui e y m dd) MM
  = mkConfig r (n + 2) ut ui false y (Some (Spec.decimal [a; b] - 1)) dd.
Proof.
  intros Ha Hb. unfold parse_token.
  cbn [rest search_token search_digits take_digits]. rewrite Ha, Hb.
  cbn -[toInt Spec.decimal Nat.add]. now rewrite toInt2.
Qed.

Lemma step_DD a b r n ut ui e y m dd :
  is_digit a = true -> is_digit b = true ->
  parse_token (mkConfig (String a (String b r)) n ut ui e y m dd) DD
  = mkConfig r (n + 2) ut ui false y m (Some (Spec.decimal [a; b])).
Proof.
  intros Ha Hb. unfold parse_token.
  cbn [rest search_token search_digits take_digits]. rewrite Ha, Hb.
  cbn -[toInt Spec.decimal Nat.add]. now rewrite toInt2.
Qed.

Lemma step_Literal x r n ut ui e y m dd :
  parse_token (mkConfig (String x r) n ut ui e y m dd) (Literal x)
  = mkConfig r (n + 1) ut ui e y m dd.
Proof.
  unfold parse_token. cbn [rest search_token search_char].
  rewrite Ascii.eqb_refl. reflexivity.
Qed.

Lemma strict_on_shape y1 y2 y3 y4 m1 m2 d1 d2 :
  forallb is_digit [y1; y2; y3; y4; m1; m2; d1; d2] = true ->
  isValid_strict (ymd_string y1 y2 y3 y4 m1 m2 d1 d2)
    (configFromStringAndFormat YYYY_MM_DD (ymd_string y1 y2 y3 y4 m1 m2 d1 d2))
  = Spec.isValidCalendarDate (ymd_string y1 y2 y3 y4 m1 m2 d1 d2).
Proof.
  intros H. pose proof H as Hall. cbn [forallb] in H.
  repeat (apply andb_prop in H; destruct H as [? H]). clear H.
  unfold Spec.isValidCalendarDate, ymd_string.
  cbn [list_ascii_of_string]. rewrite Hall.
  unfold configFromStringAndFormat, YYYY_MM_DD.
  cbn [fold_left].
  rewrite step_YYYY, step_Literal, step_MM, step_Literal, step_DD by assumption.
  unfold isValid_strict, overflow.
  cbn [a_YEAR a_MONTH a_DATE empty totalParsedInputLength unusedTokens
       String.length List.length Nat.add Nat.sub Nat.eqb negb].
  rewrite overflow_range. rewrite !andb_true_r. reflexivity.
Qed.

Lemma list_ascii_shape s y1 y2 y3 y4 h1 m1 m2 h2 d1 d2 :
  list_ascii_of_string s = [y1; y2; y3; y4; h1; m1; m2; h2; d1; d2] ->
  s = String y1 (String y2 (String y3 (String y4 (String h1
        (String m1 (String m2 (String h2 (String d1 (String d2 ""))))))))).
Proof.
  intros H. rewrite <- (string_of_list_ascii_of_string s), H. reflexivity.
Qed.

(** The strict parser accepts exactly the texts the specification
    describes. *)
Lemma strict_agrees_with_spec s :
  strict_YYYY_MM_DD_isValid (JString s) = Spec.isValidCalendarDate s.
Proof.
  unfold strict_YYYY_MM_DD_isValid. cbn [ToString].
  destruct (isValid_strict s (configFromStringAndFormat YYYY_MM_DD s)) eqn:E.
  - destruct (strict_shape s E) as (y1 & y2 & y3 & y4 & m1 & m2 & d1 & d2 & -> & Hd).
    rewrite <- E. apply (strict_on_shape _ _ _ _ _ _ _ _ Hd).
  - destruct (Spec.isValidCalendarDate s) eqn:F; [|reflexivity].
    unfold Spec.isValidCalendarDate in F.
    destruct (list_ascii_of_string s) as [|y1 [|y2 [|y3 [|y4 [|h1 [|m1 [|m2 [|h2 [|d1 [|d2 [|]]]]]]]]]]] eqn:L;
      try discriminate.
    apply list_ascii_shape in L.
    pose proof F as F'.
    apply andb_prop in F'. destruct F' as [F' _].
    apply andb_prop in F'. destruct F' as [F' G2].
    apply andb_prop in F'. destruct F' as [Hd G1].
    apply Ascii.eqb_eq in G1, G2. subst h1 h2.
    pose proof (strict_on_shape _ _ _ _ _ _ _ _ Hd) as B.
    unfold ymd_string in B. rewrite <- L in B. rewrite E in B.
    unfold Spec.isValidCalendarDate in B.
    rewrite L in B. cbn [list_ascii_of_string] in B. rewrite F in B. exact B.
Qed.

(** C5.  The date check of exercise creation accepts a string exactly
    when it has the shape of a four-digit year, a two-digit month and a
    two-digit day joined by hyphens and names a day of the calendar:
    "2024-02-29" passes, "2024-02-30" and "2024-2-5" do not; and a request
    whose other checks pass but whose supplied date fails the check is
    answered with status 400 and the invalid-date message, nothing being
    stored. *)
Theorem isValidFormat_accepts_real_dates_only :
  (forall s, isValidFormat (JString s) = Spec.isValidCalendarDate s)
  /\ isValidFormat (JString "2024-02-29") = true
  /\ isValidFormat (JString "2024-02-30") = false
  /\ isValidFormat (JString "2024-2-5") = false
  /\ (forall utcOffset moment_parse userId duration description date d now user,
        ObjectId_isValid userId = true ->
        online d = true ->
        find_user d userId = Some user ->
        truthy description = true ->
        truthy duration = true ->
        truthy date = true ->
        isValidFormat date = false ->
        let s := run (post_exercises utcOffset moment_parse
                        userId duration description date) d now in
        response s
        = Some (mkResponse 400 (ErrorBody false 400
            "Invalid date. Please use the yyyy-mm-dd format and ensure date is a valid calendar date."))
        /\ db s = d).
Proof.
  split; [exact strict_agrees_with_spec|].
  split; [reflexivity|]. split; [reflexivity|]. split; [reflexivity|].
  intros utcOffset moment_parse userId duration description date d now user
         Hid Hon Huser Hdesc Hdur Hdate Hbad.
  cbv zeta.
  split; exec; rewrite Hid; exec; rewrite Hon; exec; rewrite Huser; exec;
    rewrite Hdesc, Hdur; exec; rewrite Hdate, Hbad; exec; reflexivity.
Qed.

Lemma isValidFormat_accepts_real_dates_only_witness :
  let s := run (post_exercises Scenario.utc Scenario.moment_date_only
                  Scenario.john_id (JString "30") (JString "run")
                  (JString "2024-02-30")) Scenario.john_only 0 in
  response s
  = Some (mkResponse 400 (ErrorBody false 400
      "Invalid date. Please use the yyyy-mm-dd format and ensure date is a valid calendar date."))
  /\ db s = Scenario.john_only.
Proof.
  destruct isValidFormat_accepts_real_dates_only as (_ & _ & _ & _ & H).
  apply (H Scenario.utc Scenario.moment_date_only Scenario.john_id
           (JString "30") (JString "run") (JString "2024-02-30")
           Scenario.john_only 0 Scenario.john); reflexivity.
Defined.

(* ================================================================= *)
(** ** Exercise creation: the order of the checks *)

Section ExerciseChecks.

Variable utcOffset : Z -> Z.
Variable moment_parse : jsval -> option Z.

(** C1.  The exercise-creation handler checks in this order and stops at
    the first failure: an id that is no valid 24-character identifier is
    answered 400 without any database call; a valid id for which the
    lookup finds no user is answered 404, whatever the form fields are;
    an existing user with a missing or falsy description or duration is
    answered 400, whatever the date is.  In each case exactly one error is
    forwarded and nothing is stored. *)
Theorem post_exercises_checks_in_order
  (userId : string) (duration description date : jsval)
  (d : Database) (now : Z) :
  let s := run (post_exercises utcOffset moment_parse
                  userId duration description date) d now in
  (ObjectId_isValid userId = false ->
     response s
     = Some (mkResponse 400 (ErrorBody false 400
         "Invalid or missing ID. The ID must be exactly 24 characters long."))
     /\ db_calls s = []
     /\ List.length (forwarded s) = 1%nat
     /\ db s = d)
  /\ (ObjectId_isValid userId = true ->
      online d = true ->
      find_user d userId = None ->
      response s
      = Some (mkResponse 404 (ErrorBody false 404
          "User not found. Please check the ID and try again."))
      /\ db_calls s = [Call_User_findById userId]
      /\ List.length (forwarded s) = 1%nat
      /\ db s = d)
  /\ (ObjectId_isValid userId = true ->
      online d = true ->
      find_user d userId <> None ->
      truthy description = false \/ truthy duration = false ->
      response s
      = Some (mkResponse 400 (ErrorBody false 400
          "Description and duration are required. Please provide them and try again."))
      /\ db_calls s = [Call_User_findById userId]
      /\ List.length (forwarded s) = 1%nat
      /\ db s = d).
Proof.
  intros s; subst s. split; [|split].
  - intros Hid. exec. rewrite Hid. exec. auto.
  - intros Hid Hon Hnone. exec. rewrite Hid. exec. rewrite Hon. exec.
    rewrite Hnone. exec. auto.
  - intros Hid Hon Hsome Hfalsy. exec. rewrite Hid. exec. rewrite Hon. exec.
    destruct (find_user d userId) as [u|]; [|congruence]. exec.
    assert (negb (truthy description) || negb (truthy duration) = true) as ->
      by (destruct Hfalsy as [-> | ->]; [reflexivity | apply orb_true_r]).
    exec. auto.
Qed.

End ExerciseChecks.

Lemma post_exercises_checks_in_order_witness :
  response (run (post_exercises Scenario.utc Scenario.moment_date_only
                   "123" (JString "30") (JString "run") JUndefined)
                Scenario.john_only 0)
  = Some (mkResponse 400 (ErrorBody false 400
      "Invalid or missing ID. The ID must be exactly 24 characters long."))
  /\ response (run (post_exercises Scenario.utc Scenario.moment_date_only
                      "00000000000000000000000a" JUndefined JUndefined JUndefined)
                   Scenario.john_only 0)
     = Some (mkResponse 404 (ErrorBody false 404
         "User not found. Please check the ID and try again."))
  /\ response (run (post_exercises Scenario.utc Scenario.moment_date_only
                      Scenario.john_id (JString "") (JString "run")
                      (JString "not a date"))
                   Scenario.john_only 0)
     = Some (mkResponse 400 (ErrorBody false 400
         "Description and duration are required. Please provide them and try again.")).
Proof.
  split; [|split].
  - apply (post_exercises_checks_in_order Scenario.utc Scenario.moment_date_only
             "123" (JString "30") (JString "run") JUndefined Scenario.john_only 0).
    reflexivity.
  - apply (post_exercises_checks_in_order Scenario.utc Scenario.moment_date_only
             "00000000000000000000000a" JUndefined JUndefined JUndefined
             Scenario.john_only 0); reflexivity.
  - apply (post_exercises_checks_in_order Scenario.utc Scenario.moment_date_only
             Scenario.john_id (JString "") (JString "run") (JString "not a date")
             Scenario.john_only 0); try reflexivity.
    + discriminate.
    + right. reflexivity.
Defined.

(* ================================================================= *)
(** ** A malformed id on the two [:_id] routes *)

Section MalformedId.

Variable utcOffset : Z -> Z.
Variable moment_parse : jsval -> option Z.
Variable driver_limit : jsval -> Limit.

(** C10.  When the id of a logs request is no well-formed 24-character
    identifier, the user lookup throws on the cast, the catch branch
    forwards its error, and the answer is status 500 with message "Error
    retrieving exercises"; exercise creation answers the same id with
    status 400. *)
Theorem get_logs_malformed_id_is_500
  (userId : string) (from to limit : jsval)
  (duration description date : jsval) (d : Database) (now : Z) :
  ObjectId_isValid userId = false ->
  let s := run (get_logs utcOffset moment_parse driver_limit
                  userId from to limit) d now in
  response s
  = Some (mkResponse 500 (ErrorBody false 500 "Error retrieving exercises"))
  /\ forwarded s = [generateError "Error retrieving exercises" 500]
  /\ db_calls s = [Call_User_findById userId]
  /\ response (run (post_exercises utcOffset moment_parse
                      userId duration description date) d now)
     = Some (mkResponse 400 (ErrorBody false 400
         "Invalid or missing ID. The ID must be exactly 24 characters long.")).
Proof.
  intros Hid s; subst s. repeat split; exec; rewrite Hid; exec; reflexivity.
Qed.

End MalformedId.

Lemma get_logs_malformed_id_is_500_witness :
  response (run (get_logs Scenario.utc Scenario.moment_date_only Scenario.driver
                   "123" JUndefined JUndefined JUndefined)
                Scenario.john_ran_once 0)
  = Some (mkResponse 500 (ErrorBody false 500 "Error retrieving exercises")).
Proof.
  apply (get_logs_malformed_id_is_500 Scenario.utc Scenario.moment_date_only
           Scenario.driver "123" JUndefined JUndefined JUndefined
           JUndefined JUndefined JUndefined Scenario.john_ran_once 0).
  reflexivity.
Defined.

(* ================================================================= *)
(** ** Which handlers touch the user collection *)

Lemma keeps_ret {A} (a : A) : keeps_users (ret a).
Proof. intro s. reflexivity. Qed.

Lemma keeps_throw {A} (e : Error) : keeps_users (@throw A e).
Proof. intro s. reflexivity. Qed.

Lemma keeps_get : keeps_users get.
Proof. intro s. reflexivity. Qed.

Lemma keeps_emit e : keeps_users (emit e).
Proof. intro s. reflexivity. Qed.

Lemma keeps_set_res r : keeps_users (set_res r).
Proof. intro s. reflexivity. Qed.

Lemma keeps_set_errorHandled : keeps_users set_errorHandled.
Proof. intro s. reflexivity. Qed.

Lemma keeps_bind {A B} (m : M A) (k : A -> M B) :
  keeps_users m -> (forall a, keeps_users (k a)) -> keeps_users (bind m k).
Proof.
  intros Hm Hk s. unfold bind. specialize (Hm s).
  destruct (m s) as [[a|e] s']; cbn in *; [|exact Hm].
  rewrite Hk. exact Hm.
Qed.

Lemma keeps_try {A} (m : M A) (h : Error -> M A) :
  keeps_users m -> (forall e, keeps_users (h e)) -> keeps_users (try_catch m h).
Proof.
  intros Hm Hh s. unfold try_catch. specialize (Hm s).
  destruct (m s) as [[a|e] s']; cbn in *; [exact Hm|].
  rewrite Hh. exact Hm.
Qed.

Create HintDb keeps.
#[local] Hint Resolve keeps_ret keeps_throw keeps_get keeps_emit keeps_set_res
  keeps_set_errorHandled : keeps.
#[local] Hint Extern 2 (keeps_users (bind _ _)) =>
  apply keeps_bind; [|intro] : keeps.
#[local] Hint Extern 2 (keeps_users (try_catch _ _)) =>
  apply keeps_try; [|intro] : keeps.
#[local] Hint Extern 3 (keeps_users (if ?b then _ else _)) => destruct b : keeps.
#[local] Hint Extern 3 (keeps_users (match ?x with _ => _ end)) =>
  destruct x : keeps.
#[local] Hint Extern 4 (keeps_users _) => progress cbv beta zeta : keeps.

Lemma keeps_res_status c : keeps_users (res_status c).
Proof. unfold res_status. auto with keeps. Qed.

Lemma keeps_res_json b : keeps_users (res_json b).
Proof. unfold res_json. auto 10 with keeps. Qed.

#[local] Hint Resolve keeps_res_status keeps_res_json : keeps.

Lemma keeps_ErrorHandler e : keeps_users (ErrorHandler e).
Proof. unfold ErrorHandler. auto with keeps. Qed.

Lemma keeps_finalhandler e : keeps_users (finalhandler e).
Proof. unfold finalhandler. auto 10 with keeps. Qed.

#[local] Hint Resolve keeps_ErrorHandler keeps_finalhandler : keeps.

Lemma keeps_next e : keeps_users (next e).
Proof. unfold next. auto 10 with keeps. Qed.

Lemma keeps_check_online : keeps_users check_online.
Proof. unfold check_online. auto with keeps. Qed.

#[local] Hint Resolve keeps_next keeps_check_online : keeps.

Lemma keeps_User_find : keeps_users User_find.
Proof. unfold User_find. auto 10 with keeps. Qed.

Lemma keeps_User_findById id : keeps_users (User_findById id).
Proof. unfold User_findById. auto 10 with keeps. Qed.

Lemma keeps_Exercise_create uid dur desc dt :
  keeps_users (Exercise_create uid dur desc dt).
Proof.
  intro s. unfold Exercise_create, bind, emit, check_online, get, set_db, ret, throw.
  cbn.
  destruct (ObjectId_isValid uid), (castNumber dur), (castString desc) as [text|], dt;
    cbn; try reflexivity.
  destruct (text =? "")%string; cbn; [reflexivity|].
  destruct (online (db s)); reflexivity.
Qed.

Lemma keeps_Exercise_find dl f v : keeps_users (Exercise_find dl f v).
Proof. unfold Exercise_find. auto 10 with keeps. Qed.

#[local] Hint Resolve keeps_User_find keeps_User_findById keeps_Exercise_create
  keeps_Exercise_find : keeps.

Section KeepsUsers.
Variable utcOffset : Z -> Z.
Variable moment_parse : jsval -> option Z.
Variable driver_limit : jsval -> Limit.

Lemma keeps_get_users : keeps_users get_users.
Proof. unfold get_users. auto 10 with keeps. Qed.

Lemma keeps_post_exercises id du de da :
  keeps_users (post_exercises utcOffset moment_parse id du de da).
Proof. unfold post_exercises. auto 20 with keeps. Qed.

Lemma keeps_get_logs id f t l :
  keeps_users (get_logs utcOffset moment_parse driver_limit id f t l).
Proof. unfold get_logs. auto 20 with keeps. Qed.

Lemma keeps_fallback url : keeps_users (fallback url).
Proof. unfold fallback. auto 10 with keeps. Qed.
End KeepsUsers.


(* ================================================================= *)
(** ** The user name setter *)

Lemma upper_of_lower c : upper_char (lower_char c) = upper_char c.
Proof. destruct c as [[] [] [] [] [] [] [] []]; reflexivity. Qed.

Lemma upper_not_lower c : is_lower (upper_char c) = false.
Proof. destruct c as [[] [] [] [] [] [] [] []]; reflexivity. Qed.

Lemma lower_not_upper c : is_upper (lower_char c) = false.
Proof. destruct c as [[] [] [] [] [] [] [] []]; reflexivity. Qed.

Lemma toLowerCase_no_upper s :
  forall_chars (fun c => negb (is_upper c)) (toLowerCase s) = true.
Proof.
  induction s as [|c s IH]; [reflexivity|].
  cbn. now rewrite lower_not_upper, IH.
Qed.

Lemma username_set_cons c rest :
  username_set (String c rest) = String (upper_char c) (toLowerCase rest).
Proof. reflexivity. Qed.

Lemma username_set_casing v w :
  toLowerCase v = toLowerCase w -> username_set v = username_set w.
Proof.
  destruct v as [|a v], w as [|b w]; intros H; cbn in H; try discriminate;
    [reflexivity|].
  injection H as Hc Hr. rewrite !username_set_cons.
  now rewrite <- (upper_of_lower a), Hc, upper_of_lower, Hr.
Qed.

Lemma invalid_username_false v :
  invalid_username v = false <->
  exists t, v = JString t /\ (3 <= String.length t)%nat.
Proof.
  unfold invalid_username. split.
  - intros H. apply orb_false_iff in H. destruct H as [H Hlen].
    apply orb_false_iff in H. destruct H as [_ Hs].
    destruct v as [| n | t | l | f]; try (cbn in Hs; discriminate).
    exists t. split; [reflexivity|].
    cbn [js_length lt_number] in Hlen. apply Z.ltb_ge in Hlen. lia.
  - intros (t & -> & Hlen).
    replace (negb (truthy (JString t))) with false
      by (destruct t; [cbn in Hlen; lia | reflexivity]).
    change (negb (typeof (JString t) =? "string")%string) with false.
    cbn [orb js_length lt_number]. apply Z.ltb_ge. lia.
Qed.

Lemma username_set_nonempty t :
  (3 <= String.length t)%nat -> (username_set t =? "")%string = false.
Proof. destruct t; cbn; [lia|reflexivity]. Qed.

(* ================================================================= *)
(** ** User names stay distinct *)

Lemma username_taken_false d name :
  username_taken d name = false -> ~ In name (map username (users d)).
Proof.
  unfold username_taken. intros H Hin.
  apply in_map_iff in Hin. destruct Hin as (u & Hu & Hin).
  assert (existsb (fun u => (username u =? name)%string) (users d) = true).
  { apply existsb_exists. exists u. split; [exact Hin|]. now apply String.eqb_eq. }
  congruence.
Qed.

Lemma NoDup_snoc {A} (l : list A) (x : A) :
  NoDup l -> ~ In x l -> NoDup (l ++ [x]).
Proof.
  induction l as [|y l IH]; cbn; intros Hl Hx.
  - constructor; [intros []|constructor].
  - inversion Hl; subst. constructor.
    + rewrite in_app_iff. cbn. intuition (subst; auto).
    + apply IH; tauto.
Qed.

Lemma keeps_stays_distinct {A} (m : M A) : keeps_users m -> stays_distinct m.
Proof. intros K s. unfold distinct_usernames. now rewrite K. Qed.

Lemma stays_distinct_bind {A B} (m : M A) (k : A -> M B) :
  stays_distinct m -> (forall a, stays_distinct (k a)) ->
  stays_distinct (bind m k).
Proof.
  intros Hm Hk s Hs. unfold bind. specialize (Hm s Hs).
  destruct (m s) as [[a|e] s']; cbn in *; [|exact Hm].
  now apply Hk.
Qed.

Lemma stays_distinct_try {A} (m : M A) (h : Error -> M A) :
  stays_distinct m -> (forall e, stays_distinct (h e)) ->
  stays_distinct (try_catch m h).
Proof.
  intros Hm Hh s Hs. unfold try_catch. specialize (Hm s Hs).
  destruct (m s) as [[a|e] s']; cbn in *; [exact Hm|].
  now apply Hh.
Qed.

Lemma User_create_distinct value : stays_distinct (User_create value).
Proof.
  intros s Hd. unfold distinct_usernames in *. exec.
  destruct (username_set value =? "")%string; exec; [exact Hd|].
  destruct (online (db s)); exec; [|exact Hd].
  destruct (username_taken (db s) (username_set value)) eqn:Ht; exec;
    [exact Hd|].
  rewrite map_app. cbn [map username]. apply NoDup_snoc; [exact Hd|].
  now apply username_taken_false.
Qed.

Lemma post_users_distinct username : stays_distinct (post_users username).
Proof.
  unfold post_users. apply stays_distinct_try.
  - destruct (invalid_username username).
    + apply keeps_stays_distinct. auto with keeps.
    + apply stays_distinct_bind; [apply User_create_distinct|].
      intro u. apply keeps_stays_distinct. auto with keeps.
  - intro e. apply keeps_stays_distinct. unfold post_users_catch.
    auto with keeps.
Qed.

Section Invariant.
Variable utcOffset : Z -> Z.
Variable moment_parse : jsval -> option Z.
Variable driver_limit : jsval -> Limit.

Lemma serve_distinct d a :
  distinct_usernames d ->
  distinct_usernames (serve utcOffset moment_parse driver_limit d a).
Proof.
  intros Hd. unfold serve, run.
  set (d' := mkDatabase (users d) (exercises d) (db_up a) (nextId d)).
  assert (Hd' : distinct_usernames (db (start d' (at_time a)))) by exact Hd.
  destruct (request a) as [| u | id du de da | id f t l | url]; cbn [handle].
  - unfold distinct_usernames. now rewrite keeps_get_users.
  - now apply post_users_distinct.
  - unfold distinct_usernames. now rewrite keeps_post_exercises.
  - unfold distinct_usernames. now rewrite keeps_get_logs.
  - unfold distinct_usernames. now rewrite keeps_fallback.
Qed.

Lemma serve_all_distinct arrivals : forall d,
  distinct_usernames d ->
  distinct_usernames
    (fold_left (serve utcOffset moment_parse driver_limit) arrivals d).
Proof.
  induction arrivals as [|a arrivals IH]; intros d Hd; cbn; [exact Hd|].
  apply IH. now apply serve_distinct.
Qed.
End Invariant.

(* ================================================================= *)
(** ** User creation *)





(* ================================================================= *)
(** ** Requests no route handles *)

(** Counterexample to C8 as stated.  A request for the exercises path
    with an empty id segment and a query string: its path is exactly the
    malformed exercises path and no route matches it, yet it is answered
    404 and not 400. *)
Lemma fallback_query_string_counterexample :
  path_of "/api/users//exercises?x=1" = "/api/users//exercises"
  /\ unmatched "/api/users//exercises?x=1" = true
  /\ response (run (fallback "/api/users//exercises?x=1") Scenario.empty_db 0)
     = Some (mkResponse 404 (ErrorBody false 404
         "The requested path '/api/users//exercises?x=1' was not found on this server.")).
Proof. repeat split. Qed.

(** C8, amended.  The fallback compares the whole request URL, query
    string included: the answer is 400 with the id-format message when
    the URL is exactly "/api/users//exercises", and 404 with a message
    naming the requested URL in every other case; that URL is one no route
    matches. *)
Theorem fallback_compares_whole_url (originalUrl : string) (d : Database) (now : Z) :
  let s := run (fallback originalUrl) d now in
  response s
  = Some (if (originalUrl =? "/api/users//exercises")%string
          then mkResponse 400 (ErrorBody false 400
                 "Invalid ID format. Ensure the ID is exactly 24 characters long and corresponds to an existing user.")
          else mkResponse 404 (ErrorBody false 404
                 ("The requested path '" ++ originalUrl
                  ++ "' was not found on this server.")))
  /\ db s = d
  /\ db_calls s = []
  /\ unmatched "/api/users//exercises" = true.
Proof.
  intros s; subst s. exec.
  destruct (originalUrl =? "/api/users//exercises")%string; exec;
    repeat split; reflexivity.
Qed.

(* ================================================================= *)
(** ** The exercise log *)


Section Logs.

Variable utcOffset : Z -> Z.
Variable moment_parse : jsval -> option Z.
Variable driver_limit : jsval -> Limit.


(** C3.  On an existing user whose query returns no exercise, the logs
    handler forwards a 404 error (the dates message when [from] or [to]
    was supplied, the per-user message otherwise) and then goes on to
    build the success body with count 0 and an empty log and to call
    [res.status(200).json] with it: both paths are taken on the same
    request.  The trace lists every step; the error middleware has
    answered by the time the success body is sent, so that call throws
    and the catch branch forwards a second error. *)
Theorem get_logs_empty_takes_both_paths
  (userId : string) (from to limit : jsval) (d : Database) (now : Z)
  (user : User) (q : string * option Z * option Z) (cap : Limit) :
  ObjectId_isValid userId = true ->
  online d = true ->
  find_user d userId = Some user ->
  cast_filter (build_filter utcOffset moment_parse userId from to) = Some q ->
  Query_limit driver_limit (effective_limit limit) = cap ->
  cap <> Rejected ->
  apply_limit cap (filter (matches q) (exercises d)) = [] ->
  let s := run (get_logs utcOffset moment_parse driver_limit
                  userId from to limit) d now in
  let not_found :=
    generateError
      (if truthy from || truthy to
       then "No exercises found for the specified dates. Please adjust the date range and try again."
       else "Exercises not found for this user. Please check the exercises of another user.")
      404 in
  trace s
  = [ Ev_db (Call_User_findById userId);
      Ev_db (Call_Exercise_find userId);
      Ev_next not_found;
      Ev_json 404 (ErrorBody false 404 (message not_found));
      Ev_json 200 (LogsBody (username user) 0 userId []);
      Ev_next (generateError "Error retrieving exercises" 500) ]
  /\ response s
     = Some (mkResponse 404 (ErrorBody false 404 (message not_found)))
  /\ db s = d.
Proof.
  intros Hid Hon Huser Hq Hcap Hok Hempty s not_found; subst s not_found.
  exec. rewrite Hid. exec. rewrite Hon. exec. rewrite Huser. exec.
  rewrite Hcap, Hq.
  destruct cap as [| |n]; [congruence| |];
    exec; rewrite Hon; exec; rewrite Hempty;
    cbn [List.length Nat.eqb map];
    destruct (truthy from || truthy to); exec; auto.
Qed.

End Logs.

(* ================================================================= *)
(** ** Rendering instants as dates *)

Lemma all_from_spec p : forall count i,
  all_from count i p = true ->
  forall k, i <= k < i + Z.of_nat count -> p k = true.
Proof.
  induction count as [|c IH]; intros i H k Hk; [lia|].
  cbn [all_from] in H. apply andb_prop in H. destruct H as [Hi Hrest].
  destruct (Z.eq_dec k i) as [->|Hne]; [exact Hi|].
  apply (IH (i + 1) Hrest). lia.
Qed.

Lemma leap_year_shift y k : Spec.leap_year (y + k * 400) = Spec.leap_year y.
Proof.
  unfold Spec.leap_year.
  replace ((y + k * 400) mod 4) with (y mod 4)
    by (replace (y + k * 400) with (y + (k * 100) * 4) by lia;
        now rewrite Z.mod_add).
  replace ((y + k * 400) mod 100) with (y mod 100)
    by (replace (y + k * 400) with (y + (k * 4) * 100) by lia;
        now rewrite Z.mod_add).
  now rewrite Z.mod_add.
Qed.

(** Within an era of 400 years that starts on 1 March: the year of the
    era and the day of that year, and the only year whose last day is the
    366th is one that ends in a leap February. *)
Lemma year_of_era doe :
  0 <= doe <= 146096 ->
  let yoe := (doe - doe / 1460 + doe / 36524 - doe / 146096) / 365 in
  let doy := doe - (365 * yoe + yoe / 4 - yoe / 100) in
  0 <= yoe <= 399 /\ 0 <= doy <= 365
  /\ (doy = 365 ->
      (yoe + 1) mod 4 = 0
      /\ ((yoe + 1) mod 100 <> 0 \/ (yoe + 1) mod 400 = 0)).
Proof.
  intros H yoe doy. subst doy yoe. Z.div_mod_to_equations. lia.
Qed.

Lemma civil_from_days_valid z :
  let '(y, m, d) := civil_from_days z in
  1 <= m <= 12 /\ 1 <= d <= Spec.days_in_month y m.
Proof.
  unfold civil_from_days.
  set (era := (z + 719468) / 146097).
  set (doe := z + 719468 - era * 146097).
  assert (Hdoe : 0 <= doe <= 146096)
    by (subst doe era; Z.div_mod_to_equations; lia).
  destruct (year_of_era doe Hdoe) as (Hyoe & Hdoy & Hleap).
  set (yoe := (doe - doe / 1460 + doe / 36524 - doe / 146096) / 365) in *.
  set (doy := doe - (365 * yoe + yoe / 4 - yoe / 100)) in *.
  clearbody doy yoe era. clear Hdoe doe.
  set (mp := (5 * doy + 2) / 153).
  assert (Hmp : 153 * mp <= 5 * doy + 2 < 153 * (mp + 1))
    by (subst mp; Z.div_mod_to_equations; lia).
  clearbody mp.
  set (first_day := (153 * mp + 2) / 5).
  assert (Hfirst : 5 * first_day <= 153 * mp + 2 < 5 * first_day + 5)
    by (subst first_day; Z.div_mod_to_equations; lia).
  clearbody first_day.
  set (m := if mp <? 10 then mp + 3 else mp - 9).
  assert (Hm : mp < 10 /\ m = mp + 3 \/ 10 <= mp /\ m = mp - 9)
    by (subst m; destruct (Z.ltb_spec mp 10); lia).
  clearbody m.
  destruct (Z.leb_spec m 2) as [Hjanfeb | Hlater]; unfold Spec.days_in_month;
    destruct (Z.eqb_spec m 2) as [Hfeb | Hnotfeb];
    repeat match goal with
           | |- context [?a =? ?b] => destruct (Z.eqb_spec a b)
           end; cbn [orb]; try lia.
  (* February remains: its last day is the 29th only in a leap year *)
  replace (yoe + era * 400 + 1) with (yoe + 1 + era * 400) by lia.
  rewrite leap_year_shift. split; [lia|].
  destruct (Spec.leap_year (yoe + 1)) eqn:Hly; [lia|].
  assert (doy <> 365); [|lia].
  intros Hlast. destruct (Hleap Hlast) as (H4 & H100).
  unfold Spec.leap_year in Hly. rewrite H4 in Hly. cbn [Z.eqb andb] in Hly.
  destruct H100 as [H100 | H400].
  - apply Z.eqb_neq in H100. rewrite H100 in Hly. discriminate.
  - rewrite H400 in Hly. cbn [Z.eqb] in Hly. rewrite orb_true_r in Hly.
    discriminate.
Qed.

Lemma four_digits_ok : all_from (Z.to_nat 10000) 0 four_digits_of = true.
Proof. vm_compute. reflexivity. Qed.

Lemma two_digits_ok : all_from (Z.to_nat 100) 0 two_digits_of = true.
Proof. vm_compute. reflexivity. Qed.

Lemma zeroFill_4 y :
  0 <= y <= 9999 ->
  exists a b c d,
    zeroFill y 4 = String a (String b (String c (String d "")))
    /\ forallb is_digit [a; b; c; d] = true
    /\ Spec.decimal [a; b; c; d] = y.
Proof.
  intros Hy. pose proof (all_from_spec _ _ _ four_digits_ok y ltac:(lia)) as H.
  unfold four_digits_of in H.
  destruct (zeroFill y 4) as [|a [|b [|c [|d [|]]]]]; try discriminate.
  apply andb_prop in H. destruct H as [Hd He]. apply Z.eqb_eq in He.
  exists a, b, c, d. auto.
Qed.

Lemma zeroFill_2 n :
  0 <= n <= 99 ->
  exists a b,
    zeroFill n 2 = String a (String b "")
    /\ forallb is_digit [a; b] = true
    /\ Spec.decimal [a; b] = n.
Proof.
  intros Hn. pose proof (all_from_spec _ _ _ two_digits_ok n ltac:(lia)) as H.
  unfold two_digits_of in H.
  destruct (zeroFill n 2) as [|a [|b [|]]]; try discriminate.
  apply andb_prop in H. destruct H as [Hd He]. apply Z.eqb_eq in He.
  exists a, b. auto.
Qed.

Lemma days_in_month_le_31 y m : Spec.days_in_month y m <= 31.
Proof.
  unfold Spec.days_in_month.
  destruct (m =? 2); [destruct (Spec.leap_year y); lia|].
  destruct ((m =? 4) || (m =? 6) || (m =? 9) || (m =? 11)); lia.
Qed.

(** A calendar date whose year has at most four digits renders as a text
    the specification accepts as a date. *)
Lemma render_is_calendar_date y m d :
  0 <= y <= 9999 -> 1 <= m <= 12 -> 1 <= d <= Spec.days_in_month y m ->
  Spec.isValidCalendarDate (render_YYYY_MM_DD (y, m, d)) = true.
Proof.
  intros Hy Hm Hd. pose proof (days_in_month_le_31 y m).
  destruct (zeroFill_4 y Hy) as (y1 & y2 & y3 & y4 & Ey & Dy & Vy).
  destruct (zeroFill_2 m ltac:(lia)) as (m1 & m2 & Em & Dm & Vm).
  destruct (zeroFill_2 d ltac:(lia)) as (d1 & d2 & Ed & Dd & Vd).
  unfold render_YYYY_MM_DD. rewrite Ey, Em, Ed.
  unfold Spec.isValidCalendarDate.
  cbn [append list_ascii_of_string].
  rewrite Vy, Vm, Vd.
  cbn [forallb] in *.
  repeat match goal with
         | Hb : _ && _ = true |- _ => apply andb_prop in Hb; destruct Hb
         end.
  repeat match goal with
         | Hb : is_digit _ = true |- _ => rewrite Hb; clear Hb
         end.
  cbn [andb Ascii.eqb Bool.eqb].
  repeat (apply andb_true_intro; split); try apply Z.leb_le; try lia.
Qed.

Section LocalDates.
Variable utcOffset : Z -> Z.

(** The date rendered for an instant, when its local year has at most
    four digits, is a calendar date in the sense of the specification. *)
Lemma format_is_calendar_date t :
  0 <= fst (fst (local_date utcOffset t)) <= 9999 ->
  Spec.isValidCalendarDate (format_YYYY_MM_DD utcOffset (Some t)) = true.
Proof.
  unfold format_YYYY_MM_DD, local_date.
  pose proof (civil_from_days_valid (local_day utcOffset t)) as H.
  destruct (civil_from_days (local_day utcOffset t)) as [[y m] d].
  cbn [fst]. intros Hy. now apply render_is_calendar_date.
Qed.

(** Dropping the milliseconds of an instant does not change its local
    day, provided the offset is the same for both. *)
Lemma local_date_format_default now :
  utcOffset (format_default now) = utcOffset now ->
  local_date utcOffset (format_default now) = local_date utcOffset now.
Proof.
  intros Hoff. unfold local_date, local_day. rewrite Hoff. f_equal.
  unfold format_default.
  Z.div_mod_to_equations. lia.
Qed.
End LocalDates.

Lemma Z_to_string_nonempty n : (Z_to_string n =? "")%string = false.
Proof.
  unfold Z_to_string. destruct (Z.to_int n) as [u|u]; [|reflexivity].
  destruct u; reflexivity.
Qed.

Lemma castString_truthy v text :
  castString v = Some text -> truthy v = true -> (text =? "")%string = false.
Proof.
  destruct v as [| n | t | l | f]; cbn; intros [= <-] Ht;
    [apply Z_to_string_nonempty | now apply negb_true_iff in Ht].
Qed.

(* ================================================================= *)
(** ** Exercise creation without a date *)

Section DefaultDate.

Variable utcOffset : Z -> Z.
Variable moment_parse : jsval -> option Z.


End DefaultDate.


(* ================================================================= *)
(** ** The shape of a successful log response *)

Section LogShape.

Variable utcOffset : Z -> Z.
Variable moment_parse : jsval -> option Z.
Variable driver_limit : jsval -> Limit.

Lemma apply_limit_incl {A} (l : Limit) (xs : list A) :
  incl (apply_limit l xs) xs.
Proof.
  destruct l as [| |n]; cbn; try apply incl_refl.
  intros x Hx. rewrite <- (firstn_skipn n xs). apply in_or_app. now left.
Qed.

Lemma cast_filter_userId f q :
  cast_filter f = Some q -> fst (fst q) = ObjectId (filter_userId f).
Proof.
  unfold cast_filter.
  destruct (ObjectId_isValid (filter_userId f)); [|discriminate].
  destruct (filter_date f) as [df|]; [|now intros [= <-]].
  destruct (cast_bound (gte df)), (cast_bound (lte df)); try discriminate.
  now intros [= <-].
Qed.

(** The logs handler answers 200 exactly when the user exists and the
    query returns at least one exercise. *)
Lemma get_logs_success
  (userId : string) (from to limit : jsval) (d : Database) (now : Z)
  (user : User) (q : string * option Z * option Z) (cap : Limit)
  (found : list Exercise) :
  ObjectId_isValid userId = true ->
  online d = true ->
  find_user d userId = Some user ->
  cast_filter (build_filter utcOffset moment_parse userId from to) = Some q ->
  Query_limit driver_limit (effective_limit limit) = cap ->
  cap <> Rejected ->
  apply_limit cap (filter (matches q) (exercises d)) = found ->
  found <> [] ->
  response (run (get_logs utcOffset moment_parse driver_limit
                   userId from to limit) d now)
  = Some (mkResponse 200
            (LogsBody (username user) (List.length found) userId
                      (map (log_entry utcOffset moment_parse) found))).
Proof.
  intros Hid Hon Huser Hq Hcap Hok Hfound Hsome.
  exec. rewrite Hid. exec. rewrite Hon. exec. rewrite Huser. exec.
  rewrite Hcap, Hq.
  destruct cap as [| |n]; [congruence| |];
    exec; rewrite Hon; exec; rewrite Hfound;
    (destruct found as [|e found']; [congruence|]);
    cbn [List.length Nat.eqb]; exec; now rewrite length_map.
Qed.


End LogShape.

(* ================================================================= *)
(** ** The log theorems on the example server *)


Lemma get_logs_empty_takes_both_paths_witness :
  let s := run (get_logs Scenario.utc Scenario.moment_date_only Scenario.driver
                  Scenario.john_id JUndefined JUndefined JUndefined)
               Scenario.john_only 0 in
  trace s
  = [ Ev_db (Call_User_findById Scenario.john_id);
      Ev_db (Call_Exercise_find Scenario.john_id);
      Ev_next (generateError
        "Exercises not found for this user. Please check the exercises of another user."
        404);
      Ev_json 404 (ErrorBody false 404
        "Exercises not found for this user. Please check the exercises of another user.");
      Ev_json 200 (LogsBody "John" 0 Scenario.john_id []);
      Ev_next (generateError "Error retrieving exercises" 500) ]
  /\ response s
     = Some (mkResponse 404 (ErrorBody false 404
         "Exercises not found for this user. Please check the exercises of another user.")).
Proof.
  destruct (get_logs_empty_takes_both_paths
              Scenario.utc Scenario.moment_date_only Scenario.driver
              Scenario.john_id JUndefined JUndefined JUndefined
              Scenario.john_only 0 Scenario.john
              (Scenario.john_id, None, None) (AtMost 20)
              eq_refl eq_refl eq_refl eq_refl eq_refl
              ltac:(discriminate) eq_refl)
    as (T & R & _).
  split; [exact T | exact R].
Defined.



(* ================================================================= *)
(** * Properties of the application as a whole *)

Import Behaviour.

(** [exec], with the comparisons of literal texts decided as well. *)
Ltac exec_all :=
  exec;
  cbn [String.eqb Ascii.eqb Bool.eqb append handle List.length Nat.eqb map
       first_json].

(** Decides the comparisons between number literals. *)
Ltac decide_closed :=
  repeat match goal with
         | |- context [Z.eqb ?a ?b] =>
             let v := eval cbv in (Z.eqb a b) in
             lazymatch v with
             | true => change (Z.eqb a b) with true
             | false => change (Z.eqb a b) with false
             end
         end.

(** Splits the run on the innermost undecided test. *)
Ltac branch :=
  match goal with
  | |- context [if ?b then _ else _] =>
      lazymatch b with
      | context [if _ then _ else _] => fail
      | context [match _ with _ => _ end] => fail
      | _ => destruct b eqn:?
      end
  | |- context [match ?x with _ => _ end] =>
      lazymatch x with
      | context [if _ then _ else _] => fail
      | context [match _ with _ => _ end] => fail
      | _ => destruct x eqn:?
      end
  end.

(** Follows a handler down every branch. *)
Ltac all_branches :=
  decide_closed; exec_all; repeat (branch; exec_all; decide_closed; exec_all).

Ltac pick_status := solve [repeat (first [left; reflexivity | right])].

Section WholeApplication.

Variable utcOffset : Z -> Z.
Variable moment_parse : jsval -> option Z.
Variable driver_limit : jsval -> Limit.

(** What holds at the end of every run, established once by following
    each handler down all its branches. *)
Lemma every_run (req : Request) (d : Database) (now : Z) :
  run_facts req d (run (handle utcOffset moment_parse driver_limit req) d now).
Proof.
  destruct req; cbn [handle]; all_branches.
  all: unfold run_facts; exec_all.
  all: split; [eexists; split; [reflexivity|]; cbn [status body uniform In statuses];
               split; [pick_status|]; split;
               [try lia; repeat split; try discriminate; lia
               |intros Hs; try lia; reflexivity]|].
  all: split; [reflexivity|]; split; [lia|].
  all: intros err Hin; cbn [In] in Hin.
  all: repeat (destruct Hin as [<- | Hin];
               [cbn [statusCode message code]; repeat split;
                try discriminate; tauto|]).
  all: contradiction.
Qed.


(** X2.  The client receives the first body the code sends: in every
    run the response is the first call of [res.json] in the trace, with
    the status in force at that call; nothing sent later replaces it. *)
Theorem first_response_wins (req : Request) (d : Database) (now : Z) :
  response (run (handle utcOffset moment_parse driver_limit req) d now)
  = first_json (trace (run (handle utcOffset moment_parse driver_limit req) d now)).
Proof. apply (every_run req d now). Qed.

(** X3.  A request that is answered with an error stores nothing: if
    the status is 400 or above, the database is as it was. *)
Theorem rejected_requests_store_nothing
  (req : Request) (d : Database) (now : Z) (r : Response) :
  response (run (handle utcOffset moment_parse driver_limit req) d now) = Some r ->
  400 <= status r ->
  db (run (handle utcOffset moment_parse driver_limit req) d now) = d.
Proof.
  intros Hr Hs.
  destruct (every_run req d now) as ((r' & Hr' & _ & _ & Hdb) & _).
  rewrite Hr in Hr'. injection Hr' as <-. now apply Hdb.
Qed.

(** X4.  Every error a handler forwards was built with a status of 400,
    404 or 500 and a message, so the defaults of the error middleware
    (500, "Something went wrong") are never needed; and at most two
    errors are forwarded in one run. *)
Theorem forwarded_errors_are_complete
  (req : Request) (d : Database) (now : Z) :
  (List.length (forwarded (run (handle utcOffset moment_parse driver_limit req) d now)) <= 2)%nat
  /\ forall err, In err (forwarded (run (handle utcOffset moment_parse driver_limit req) d now)) ->
       (statusCode err = Some 400 \/ statusCode err = Some 404
        \/ statusCode err = Some 500)
       /\ message err <> ""
       /\ code err = JUndefined.
Proof.
  destruct (every_run req d now) as (_ & _ & Hlen & Herr).
  split; [exact Hlen | exact Herr].
Qed.

End WholeApplication.

Lemma rejected_requests_store_nothing_witness :
  db (run (handle Scenario.utc Scenario.moment_date_only Scenario.driver
             (POST_exercises Scenario.john_id (JString "30") (JString "run")
                             (JString "2023-02-29")))
          Scenario.john_only 0)
  = Scenario.john_only.
Proof.
  apply (rejected_requests_store_nothing
           Scenario.utc Scenario.moment_date_only Scenario.driver
           (POST_exercises Scenario.john_id (JString "30") (JString "run")
                           (JString "2023-02-29"))
           Scenario.john_only 0
           (mkResponse 400
              (ErrorBody false 400
                 "Invalid date. Please use the yyyy-mm-dd format and ensure date is a valid calendar date."))).
  - reflexivity.
  - cbn [status]. lia.
Defined.

(* ================================================================= *)
(** ** Requests that only read *)

Lemma keeps_db_ret {A} (a : A) : keeps_db (ret a).
Proof. intro s. reflexivity. Qed.

Lemma keeps_db_throw {A} (e : Error) : keeps_db (@throw A e).
Proof. intro s. reflexivity. Qed.

Lemma keeps_db_get : keeps_db get.
Proof. intro s. reflexivity. Qed.

Lemma keeps_db_emit e : keeps_db (emit e).
Proof. intro s. reflexivity. Qed.

Lemma keeps_db_set_res r : keeps_db (set_res r).
Proof. intro s. reflexivity. Qed.

Lemma keeps_db_set_errorHandled : keeps_db set_errorHandled.
Proof. intro s. reflexivity. Qed.

Lemma keeps_db_bind {A B} (m : M A) (k : A -> M B) :
  keeps_db m -> (forall a, keeps_db (k a)) -> keeps_db (bind m k).
Proof.
  intros Hm Hk s. unfold bind. specialize (Hm s).
  destruct (m s) as [[a|e] s']; cbn [snd] in *; [|exact Hm].
  now rewrite Hk.
Qed.

Lemma keeps_db_try {A} (m : M A) (h : Error -> M A) :
  keeps_db m -> (forall e, keeps_db (h e)) -> keeps_db (try_catch m h).
Proof.
  intros Hm Hh s. unfold try_catch. specialize (Hm s).
  destruct (m s) as [[a|e] s']; cbn [snd] in *; [exact Hm|].
  now rewrite Hh.
Qed.

Create HintDb keeps_db.
#[local] Hint Resolve keeps_db_ret keeps_db_throw keeps_db_get keeps_db_emit
  keeps_db_set_res keeps_db_set_errorHandled : keeps_db.
#[local] Hint Extern 2 (keeps_db (bind _ _)) =>
  apply keeps_db_bind; [|intro] : keeps_db.
#[local] Hint Extern 2 (keeps_db (try_catch _ _)) =>
  apply keeps_db_try; [|intro] : keeps_db.
#[local] Hint Extern 3 (keeps_db (if ?b then _ else _)) => destruct b : keeps_db.
#[local] Hint Extern 3 (keeps_db (match ?x with _ => _ end)) =>
  destruct x : keeps_db.
#[local] Hint Extern 4 (keeps_db _) => progress cbv beta zeta : keeps_db.

Lemma keeps_db_res_status c : keeps_db (res_status c).
Proof. unfold res_status. auto with keeps_db. Qed.

Lemma keeps_db_res_json b : keeps_db (res_json b).
Proof. unfold res_json. auto 10 with keeps_db. Qed.

#[local] Hint Resolve keeps_db_res_status keeps_db_res_json : keeps_db.

Lemma keeps_db_next e : keeps_db (next e).
Proof. unfold next, ErrorHandler, finalhandler. auto 20 with keeps_db. Qed.

Lemma keeps_db_check_online : keeps_db check_online.
Proof. unfold check_online. auto with keeps_db. Qed.

#[local] Hint Resolve keeps_db_next keeps_db_check_online : keeps_db.

Lemma keeps_db_User_find : keeps_db User_find.
Proof. unfold User_find. auto 10 with keeps_db. Qed.

Lemma keeps_db_User_findById id : keeps_db (User_findById id).
Proof. unfold User_findById. auto 10 with keeps_db. Qed.

Lemma keeps_db_Exercise_find dl f v : keeps_db (Exercise_find dl f v).
Proof. unfold Exercise_find. auto 10 with keeps_db. Qed.

#[local] Hint Resolve keeps_db_User_find keeps_db_User_findById
  keeps_db_Exercise_find : keeps_db.

Section ReadOnly.

Variable utcOffset : Z -> Z.
Variable moment_parse : jsval -> option Z.
Variable driver_limit : jsval -> Limit.

Lemma keeps_db_get_users : keeps_db get_users.
Proof. unfold get_users. auto 10 with keeps_db. Qed.

Lemma keeps_db_get_logs id from to limit :
  keeps_db (get_logs utcOffset moment_parse driver_limit id from to limit).
Proof. unfold get_logs. auto 20 with keeps_db. Qed.

Lemma keeps_db_fallback url : keeps_db (fallback url).
Proof. unfold fallback. auto 10 with keeps_db. Qed.

(** X5.  The user list, the exercise log and the fallback never write:
    whatever they answer, and in whatever state they start, the database
    is left as it was. *)
Theorem reads_leave_database_unchanged :
  keeps_db get_users
  /\ (forall id from to limit,
        keeps_db (get_logs utcOffset moment_parse driver_limit id from to limit))
  /\ (forall url, keeps_db (fallback url)).
Proof.
  split; [|split].
  - exact keeps_db_get_users.
  - exact keeps_db_get_logs.
  - exact keeps_db_fallback.
Qed.

End ReadOnly.

(* ================================================================= *)
(** ** The user name setter, and users over time *)

Lemma upper_upper c : upper_char (upper_char c) = upper_char c.
Proof. destruct c as [[] [] [] [] [] [] [] []]; reflexivity. Qed.

Lemma lower_lower c : lower_char (lower_char c) = lower_char c.
Proof. destruct c as [[] [] [] [] [] [] [] []]; reflexivity. Qed.

Lemma toLowerCase_idempotent s : toLowerCase (toLowerCase s) = toLowerCase s.
Proof.
  induction s as [|c s IH]; [reflexivity|].
  cbn. now rewrite lower_lower, IH.
Qed.

Lemma toLowerCase_length s : String.length (toLowerCase s) = String.length s.
Proof. induction s as [|c s IH]; cbn; congruence. Qed.

Lemma username_set_idempotent value :
  username_set (username_set value) = username_set value.
Proof.
  destruct value as [|c rest]; [reflexivity|].
  rewrite !username_set_cons. now rewrite upper_upper, toLowerCase_idempotent.
Qed.


Lemma find_user_some d id u :
  find_user d id = Some u -> In u (users d) /\ user_id u = ObjectId id.
Proof.
  unfold find_user. intros H. apply find_some in H. destruct H as [Hin He].
  split; [exact Hin|]. now apply String.eqb_eq in He.
Qed.

Lemma username_taken_true d name :
  username_taken d name = true <-> In name (map username (users d)).
Proof.
  unfold username_taken. rewrite existsb_exists, in_map_iff. split.
  - intros (u & Hin & He). apply String.eqb_eq in He. eauto.
  - intros (u & He & Hin). exists u. split; [exact Hin|]. now apply String.eqb_eq.
Qed.

(** The database after [POST /api/users]: unchanged, or with one user of
    the normalized name appended. *)
Lemma post_users_database (username : jsval) (d : Database) (now : Z) :
  let s := run (post_users username) d now in
  (db s = d
   /\ forall r, response s = Some r -> status r <> 201)
  \/ (exists t,
        username = JString t
        /\ username_taken d (username_set t) = false
        /\ online d = true
        /\ db s = mkDatabase
                    (users d ++ [mkUser (ObjectId_generate (nextId d))
                                        (username_set t)])
                    (exercises d) true (nextId d + 1)
        /\ response s
           = Some (mkResponse 201
                     (UserBody (mkUser (ObjectId_generate (nextId d))
                                       (username_set t))))).
Proof.
  cbv zeta. destruct (invalid_username username) eqn:Hinv.
  - left. exec. rewrite Hinv. exec. split; [reflexivity|].
    intros r [= <-]. discriminate.
  - apply invalid_username_false in Hinv as Hlen.
    destruct Hlen as (t & -> & Hlen).
    exec. rewrite Hinv. exec. cbn [ToString].
    rewrite (username_set_nonempty t Hlen). exec.
    destruct (online d) eqn:Hon; exec;
      [|left; split; [reflexivity|intros r [= <-]; discriminate]].
    destruct (username_taken d (username_set t)) eqn:Htaken; exec.
    + left. split; [reflexivity|]. intros r [= <-]. discriminate.
    + right. exists t. rewrite Hon. auto.
Qed.





(* ================================================================= *)
(** ** Exercises over time *)

Section ExercisesOverTime.

Variable utcOffset : Z -> Z.
Variable moment_parse : jsval -> option Z.
Variable driver_limit : jsval -> Limit.

(** A run that stored nothing and did not answer with a success. *)
Ltac refused :=
  left; split;
  [reflexivity
  |let r := fresh "r" in
   intros r [= <-]; cbn [status]; decide_closed; lia].

(** The database after [POST /api/users/:_id/exercises]: unchanged, or
    with one exercise of that user appended. *)
Lemma post_exercises_database
  (userId : string) (duration description date : jsval)
  (d : Database) (now : Z) :
  let s := run (post_exercises utcOffset moment_parse
                  userId duration description date) d now in
  (db s = d /\ forall r, response s = Some r -> status r <> 200)
  \/ (exists user n text t,
        ObjectId_isValid userId = true
        /\ online d = true
        /\ find_user d userId = Some user
        /\ (truthy date = true -> isValidFormat date = true)
        /\ castNumber duration = Some n
        /\ castString description = Some text
        /\ (if truthy date then moment_parse date
            else Some (format_default now)) = Some t
        /\ db s = mkDatabase (users d)
                    (exercises d
                     ++ [mkExercise (ObjectId_generate (nextId d))
                                    (ObjectId userId) n text t])%list
                    true (nextId d + 1)
        /\ response s
           = Some (mkResponse 200
                     (ExerciseBody (ObjectId_generate (nextId d))
                        (ObjectId userId) n text
                        (format_YYYY_MM_DD utcOffset (Some t))))).
Proof.
  cbv zeta.
  exec. destruct (ObjectId_isValid userId) eqn:Hid; exec;
    [|refused].
  destruct (online d) eqn:Hon; exec;
    [|refused].
  destruct (find_user d userId) as [user|] eqn:Huser; exec;
    [|refused].
  destruct (negb (truthy description) || negb (truthy duration)) eqn:Hreq; exec;
    [refused|].
  apply orb_false_iff in Hreq. destruct Hreq as [Hdesc Hdur].
  apply negb_false_iff in Hdesc, Hdur.
  destruct (truthy date && negb (isValidFormat date)) eqn:Hdate; exec;
    [refused|].
  change (moment moment_parse (OfValue date)) with (moment_parse date).
  destruct (castNumber duration) as [n|] eqn:Hn; exec;
    [|refused].
  destruct (castString description) as [text|] eqn:Htext; exec;
    [|refused].
  destruct (if truthy date then moment_parse date
            else Some (format_default now)) as [t|] eqn:Ht; exec;
    [|refused].
  rewrite (castString_truthy _ _ Htext Hdesc). exec. rewrite Hon. exec.
  cbn [moment exercise_id Model.userId Model.duration Model.description
       Model.date].
  right. exists user, n, text, t.
  repeat split; try reflexivity; try assumption.
  - intros Htr. rewrite Htr, andb_true_l in Hdate.
    now apply negb_false_iff in Hdate.
  - now rewrite Hon.
Qed.

Lemma matches_user_only (id : string) (e : Exercise) :
  matches (ObjectId id, None, None) e
  = (Model.userId e =? ObjectId id)%string.
Proof. unfold matches. now rewrite !andb_true_r. Qed.

Lemma filter_snoc {A} (p : A -> bool) (xs : list A) (x : A) :
  p x = true -> filter p (xs ++ [x]) = (filter p xs ++ [x])%list.
Proof. intros Hp. rewrite filter_app. cbn. now rewrite Hp. Qed.

Lemma firstn_snoc_nonempty {A} (n : nat) (xs : list A) (x : A) :
  firstn (S n) (xs ++ [x]) <> [].
Proof. destruct xs; cbn; discriminate. Qed.

Lemma firstn_snoc_full {A} (n : nat) (xs : list A) (x : A) :
  (n <= List.length xs)%nat -> firstn n (xs ++ [x]) = firstn n xs.
Proof.
  intros H. rewrite firstn_app.
  replace (n - List.length xs)%nat with O by lia.
  cbn. apply app_nil_r.
Qed.

(** The log asked for without dates and without a limit, when the user
    exists and has at least one exercise: the first twenty. *)
Lemma get_logs_default
  (userId : string) (d : Database) (now : Z) (user : User) :
  ObjectId_isValid userId = true ->
  online d = true ->
  find_user d userId = Some user ->
  firstn 20 (Behaviour.exercises_of d userId) <> [] ->
  response (run (get_logs utcOffset moment_parse driver_limit
                   userId JUndefined JUndefined JUndefined) d now)
  = Some (mkResponse 200
            (LogsBody (username user)
               (List.length (firstn 20 (Behaviour.exercises_of d userId)))
               userId
               (map (log_entry utcOffset moment_parse)
                    (firstn 20 (Behaviour.exercises_of d userId))))).
Proof.
  intros Hid Hon Huser Hsome.
  apply (get_logs_success utcOffset moment_parse driver_limit
           userId JUndefined JUndefined JUndefined d now user
           (ObjectId userId, None, None) (AtMost 20)); auto.
  - unfold build_filter, cast_filter. cbn. now rewrite Hid.
  - discriminate.
  - cbn [apply_limit]. f_equal. apply filter_ext. intros e.
    apply matches_user_only.
Qed.



(** Serving a request adds at most one document and changes none. *)
Lemma serve_appends (d : Database) (a : Arrival) :
  exists us es,
    users (serve utcOffset moment_parse driver_limit d a) = (users d ++ us)%list
    /\ exercises (serve utcOffset moment_parse driver_limit d a)
       = (exercises d ++ es)%list
    /\ (List.length us + List.length es <= 1)%nat
    /\ (forall u, In u us -> username_set (username u) = username u)
    /\ (forall e, In e es ->
          exists u, In u (users d) /\ user_id u = Model.userId e).
Proof.
  unfold serve.
  set (d' := mkDatabase (users d) (exercises d) (db_up a) (nextId d)).
  assert (Hkeep : forall h : M unit,
             Behaviour.keeps_db h ->
             exists us es,
               users (db (run h d' (at_time a))) = (users d ++ us)%list
               /\ exercises (db (run h d' (at_time a))) = (exercises d ++ es)%list
               /\ (List.length us + List.length es <= 1)%nat
               /\ (forall u, In u us -> username_set (username u) = username u)
               /\ (forall e, In e es ->
                     exists u, In u (users d) /\ user_id u = Model.userId e)).
  { intros h Hh. exists [], []. unfold run. rewrite Hh. cbn.
    rewrite !app_nil_r. repeat split; auto; contradiction. }
  assert (Hsame : forall s : State,
             db s = d' ->
             exists us es,
               users (db s) = (users d ++ us)%list
               /\ exercises (db s) = (exercises d ++ es)%list
               /\ (List.length us + List.length es <= 1)%nat
               /\ (forall u, In u us -> username_set (username u) = username u)
               /\ (forall e, In e es ->
                     exists u, In u (users d) /\ user_id u = Model.userId e)).
  { intros s ->. exists [], []. cbn. rewrite !app_nil_r.
    repeat split; auto; contradiction. }
  destruct (request a) as [| u | id du de da | id f t l | url]; cbn [handle].
  - apply Hkeep, keeps_db_get_users.
  - destruct (post_users_database u d' (at_time a)) as [(Hdb & _) | Hyes];
      [apply Hsame, Hdb|].
    destruct Hyes as (name & _ & _ & _ & Hdb & _). cbv zeta in Hdb.
    rewrite Hdb. cbn [users exercises d'].
    exists [mkUser (ObjectId_generate (nextId d)) (username_set name)], [].
    rewrite app_nil_r. split; [reflexivity|]. split; [reflexivity|].
    split; [cbn [List.length]; lia|]. split; [|intros e []].
    intros u' [<- | []]. cbn [username]. apply username_set_idempotent.
  - destruct (post_exercises_database id du de da d' (at_time a))
      as [(Hdb & _) | Hyes]; [apply Hsame, Hdb|].
    destruct Hyes as (user & n & text & t & _ & _ & Huser & _ & _ & _ & _
                      & Hdb & _).
    cbv zeta in Hdb. rewrite Hdb. cbn [users exercises d'].
    exists [], [mkExercise (ObjectId_generate (nextId d)) (ObjectId id) n text t].
    rewrite app_nil_r. split; [reflexivity|]. split; [reflexivity|].
    split; [cbn [List.length]; lia|]. split; [intros u' []|].
    intros e [<- | []]. cbn [Model.userId].
    apply find_user_some in Huser. destruct Huser as [Hin Hu].
    exists user. split; [exact Hin|exact Hu].
  - apply Hkeep, keeps_db_get_logs.
  - apply Hkeep, keeps_db_fallback.
Qed.

(** X11.  Stored documents are never removed, changed or reordered:
    after any sequence of requests the users and the exercises that were
    stored at the start are still there, unchanged and in the same
    positions, with whatever was stored since after them. *)
Theorem stored_documents_stay (arrivals : list Arrival) : forall d : Database,
  exists us es,
    users (fold_left (serve utcOffset moment_parse driver_limit) arrivals d)
    = (users d ++ us)%list
    /\ exercises (fold_left (serve utcOffset moment_parse driver_limit) arrivals d)
       = (exercises d ++ es)%list
    /\ (List.length us + List.length es <= List.length arrivals)%nat.
Proof.
  induction arrivals as [|a arrivals IH]; intros d; cbn [fold_left].
  - exists [], []. rewrite !app_nil_r. cbn. auto.
  - destruct (serve_appends d a) as (us1 & es1 & Hu1 & He1 & Hl1 & _).
    destruct (IH (serve utcOffset moment_parse driver_limit d a))
      as (us2 & es2 & Hu2 & He2 & Hl2).
    exists (us1 ++ us2)%list, (es1 ++ es2)%list.
    rewrite Hu2, He2, Hu1, He1, !app_assoc, !List.length_app.
    cbn [List.length]. repeat split; lia.
Qed.

(** X12.  Every stored exercise belongs to a stored user: if that holds
    of a database, it holds after any sequence of requests. *)
Theorem exercises_keep_their_users (arrivals : list Arrival) : forall d : Database,
  Behaviour.exercises_have_users d ->
  Behaviour.exercises_have_users
    (fold_left (serve utcOffset moment_parse driver_limit) arrivals d).
Proof.
  induction arrivals as [|a arrivals IH]; intros d Hd; cbn [fold_left];
    [exact Hd|].
  apply IH.
  destruct (serve_appends d a) as (us & es & Hu & He & _ & _ & Hes).
  intros e. rewrite He, Hu. intros Hin. apply in_app_or in Hin.
  destruct Hin as [Hin | Hin].
  - destruct (Hd e Hin) as (u & Hu' & Hid). exists u.
    split; [apply in_or_app; now left | exact Hid].
  - destruct (Hes e Hin) as (u & Hu' & Hid). exists u.
    split; [apply in_or_app; now left | exact Hid].
Qed.


End ExercisesOverTime.



Lemma exercises_keep_their_users_witness :
  Behaviour.exercises_have_users
    (fold_left (serve Scenario.utc Scenario.moment_date_only Scenario.driver)
       [mkArrival (POST_users (JString "alice")) 0 true;
        mkArrival (POST_exercises Scenario.john_id (JString "45")
                                  (JString "swim") JUndefined) 1 true]
       Scenario.john_ran_once).
Proof.
  apply (exercises_keep_their_users
           Scenario.utc Scenario.moment_date_only Scenario.driver).
  intros e [<- | []]. exists Scenario.john. split; [now left | reflexivity].
Defined.


(* ================================================================= *)
(** ** Dates: from text to instant and back *)

Lemma leap_year_facts y :
  Spec.leap_year y = true ->
  y mod 4 = 0 /\ (y mod 100 <> 0 \/ y mod 400 = 0).
Proof.
  unfold Spec.leap_year. intros H. apply andb_prop in H. destruct H as [H4 H].
  apply Z.eqb_eq in H4. split; [exact H4|].
  apply orb_prop in H. destruct H as [H | H].
  - left. apply negb_true_iff, Z.eqb_neq in H. exact H.
  - right. now apply Z.eqb_eq in H.
Qed.

Lemma year_of_era_recovered yoe doy :
  0 <= yoe <= 399 -> 0 <= doy <= 365 ->
  (doy = 365 ->
   (yoe + 1) mod 4 = 0 /\ ((yoe + 1) mod 100 <> 0 \/ (yoe + 1) mod 400 = 0)) ->
  let doe := yoe * 365 + yoe / 4 - yoe / 100 + doy in
  0 <= doe <= 146096
  /\ (doe - doe / 1460 + doe / 36524 - doe / 146096) / 365 = yoe.
Proof.
  intros H1 H2 H3 doe. subst doe. Z.div_mod_to_equations. lia.
Qed.

(** The day of the year that starts on 1 March, for a day of the
    calendar. *)
Lemma day_of_march_year y m d :
  1 <= m <= 12 -> 1 <= d <= Spec.days_in_month y m ->
  let mp := if 2 <? m then m - 3 else m + 9 in
  let doy := (153 * mp + 2) / 5 + d - 1 in
  0 <= doy <= 365
  /\ (doy = 365 -> m = 2 /\ Spec.leap_year y = true)
  /\ (5 * doy + 2) / 153 = mp
  /\ m = (if mp <? 10 then mp + 3 else mp - 9).
Proof.
  intros Hm Hd mp doy. subst doy mp.
  unfold Spec.days_in_month in Hd.
  assert (m = 1 \/ m = 2 \/ m = 3 \/ m = 4 \/ m = 5 \/ m = 6 \/ m = 7
          \/ m = 8 \/ m = 9 \/ m = 10 \/ m = 11 \/ m = 12) as Hc by lia.
  repeat (destruct Hc as [-> | Hc]); try subst m;
    cbn [Z.ltb Z.eqb Z.compare Pos.compare Pos.compare_cont orb Pos.eqb] in *;
    try (destruct (Spec.leap_year y));
    change ((153 * (1 + 9) + 2) / 5) with 306;
    change ((153 * (2 + 9) + 2) / 5) with 337;
    change ((153 * (3 - 3) + 2) / 5) with 0;
    change ((153 * (4 - 3) + 2) / 5) with 31;
    change ((153 * (5 - 3) + 2) / 5) with 61;
    change ((153 * (6 - 3) + 2) / 5) with 92;
    change ((153 * (7 - 3) + 2) / 5) with 122;
    change ((153 * (8 - 3) + 2) / 5) with 153;
    change ((153 * (9 - 3) + 2) / 5) with 184;
    change ((153 * (10 - 3) + 2) / 5) with 214;
    change ((153 * (11 - 3) + 2) / 5) with 245;
    change ((153 * (12 - 3) + 2) / 5) with 275;
    (split; [lia|]; split; [intros; split; [lia | try reflexivity; lia]|];
     split; [Z.div_mod_to_equations; lia|]; reflexivity).
Qed.

(** Turning a day of the calendar into a day number and back gives the
    same day. *)
Lemma civil_of_days_from_civil y m d :
  1 <= m <= 12 -> 1 <= d <= Spec.days_in_month y m ->
  civil_from_days (days_from_civil y m d) = (y, m, d).
Proof.
  intros Hm Hd.
  destruct (day_of_march_year y m d Hm Hd) as (Hdoy & Hlast & Hmp & Hmonth).
  unfold days_from_civil.
  set (mp := if 2 <? m then m - 3 else m + 9) in *.
  set (doy := (153 * mp + 2) / 5 + d - 1) in *.
  set (y' := if m <=? 2 then y - 1 else y).
  set (era := y' / 400).
  set (yoe := y' - era * 400).
  assert (Hyoe : 0 <= yoe <= 399)
    by (subst yoe era; Z.div_mod_to_equations; lia).
  assert (Hleap : doy = 365 ->
            (yoe + 1) mod 4 = 0
            /\ ((yoe + 1) mod 100 <> 0 \/ (yoe + 1) mod 400 = 0)).
  { intros H365. destruct (Hlast H365) as (-> & Hly).
    apply leap_year_facts. rewrite <- Hly. subst yoe y'. cbn [Z.leb Z.compare Pos.compare Pos.compare_cont].
    replace y with (y - 1 - era * 400 + 1 + era * 400) at 2 by lia.
    symmetry. apply leap_year_shift. }
  destruct (year_of_era_recovered yoe doy Hyoe Hdoy Hleap) as (Hdoe & Hrec).
  set (doe := yoe * 365 + yoe / 4 - yoe / 100 + doy) in *.
  unfold civil_from_days.
  replace (era * 146097 + doe - 719468 + 719468) with (doe + era * 146097) by lia.
  rewrite Z.div_add by lia. rewrite (Z.div_small doe) by lia.
  replace (doe + era * 146097 - (0 + era) * 146097) with doe by lia.
  rewrite Hrec.
  replace (doe - (365 * yoe + yoe / 4 - yoe / 100)) with doy by (subst doe; lia).
  rewrite Hmp. rewrite <- Hmonth.
  replace (doy - (153 * mp + 2) / 5 + 1) with d by (subst doy; lia).
  subst yoe y'. destruct (m <=? 2); f_equal; f_equal; lia.
Qed.

(** Turning a day number into a day of the calendar and back gives the
    same day number. *)
Lemma days_from_civil_of_days z :
  let '(y, m, d) := civil_from_days z in days_from_civil y m d = z.
Proof.
  unfold civil_from_days.
  set (era := (z + 719468) / 146097).
  set (doe := z + 719468 - era * 146097).
  assert (Hdoe : 0 <= doe <= 146096)
    by (subst doe era; Z.div_mod_to_equations; lia).
  destruct (year_of_era doe Hdoe) as (Hyoe & Hdoy & _).
  set (yoe := (doe - doe / 1460 + doe / 36524 - doe / 146096) / 365) in *.
  set (doy := doe - (365 * yoe + yoe / 4 - yoe / 100)) in *.
  set (mp := (5 * doy + 2) / 153).
  assert (Hmp : 0 <= mp <= 11) by (subst mp; Z.div_mod_to_equations; lia).
  set (m := if mp <? 10 then mp + 3 else mp - 9).
  assert (Hm : (if 2 <? m then m - 3 else m + 9) = mp).
  { subst m. destruct (Z.ltb_spec mp 10).
    - destruct (Z.ltb_spec 2 (mp + 3)); lia.
    - destruct (Z.ltb_spec 2 (mp - 9)); lia. }
  unfold days_from_civil. rewrite Hm.
  assert (Hy : (if m <=? 2 then (if m <=? 2 then yoe + era * 400 + 1
                                 else yoe + era * 400) - 1
                else (if m <=? 2 then yoe + era * 400 + 1
                      else yoe + era * 400)) = yoe + era * 400)
    by (destruct (m <=? 2); lia).
  rewrite Hy.
  assert (He : (yoe + era * 400) / 400 = era)
    by (rewrite Z.div_add by lia; rewrite Z.div_small by lia; lia).
  rewrite He.
  replace (yoe + era * 400 - era * 400) with yoe by lia.
  subst doy doe. lia.
Qed.

Lemma digit_range c : is_digit c = true -> 0 <= Z.of_N (digit_value c) <= 9.
Proof.
  unfold is_digit, digit_value. intros H. apply andb_prop in H.
  destruct H as [H1 H2]. apply N.leb_le in H1, H2. lia.
Qed.

Lemma digit_value_inj a b :
  is_digit a = true -> is_digit b = true ->
  digit_value a = digit_value b -> a = b.
Proof.
  unfold is_digit, digit_value, JS.code. intros Ha Hb H.
  apply andb_prop in Ha, Hb. destruct Ha as [Ha _], Hb as [Hb _].
  apply N.leb_le in Ha, Hb.
  rewrite <- (ascii_N_embedding a), <- (ascii_N_embedding b).
  f_equal. lia.
Qed.

(** Closes a goal [forallb is_digit [...] = true] from the hypotheses. *)
Ltac all_digits :=
  cbn [forallb];
  repeat match goal with
         | H : is_digit ?c = true |- context [is_digit ?c] => rewrite H
         end;
  reflexivity.

(** A number printed with zero fill reads back as itself, and digits
    read as a number print back as themselves. *)
Lemma zeroFill_decimal4 a b c d :
  forallb is_digit [a; b; c; d] = true ->
  zeroFill (Spec.decimal [a; b; c; d]) 4
  = String a (String b (String c (String d ""))).
Proof.
  intros H. cbn [forallb] in H.
  repeat (apply andb_prop in H; destruct H as [? H]). clear H.
  pose proof (digit_range a ltac:(assumption)).
  pose proof (digit_range b ltac:(assumption)).
  pose proof (digit_range c ltac:(assumption)).
  pose proof (digit_range d ltac:(assumption)).
  assert (Hy : 0 <= Spec.decimal [a; b; c; d] <= 9999)
    by (unfold Spec.decimal; cbn [fold_left]; lia).
  destruct (zeroFill_4 _ Hy) as (a' & b' & c' & d' & -> & Hd & Hv).
  cbn [forallb] in Hd.
  repeat (apply andb_prop in Hd; destruct Hd as [? Hd]). clear Hd.
  pose proof (digit_range a' ltac:(assumption)).
  pose proof (digit_range b' ltac:(assumption)).
  pose proof (digit_range c' ltac:(assumption)).
  pose proof (digit_range d' ltac:(assumption)).
  unfold Spec.decimal in Hv. cbn [fold_left] in Hv.
  rewrite (digit_value_inj a' a), (digit_value_inj b' b),
    (digit_value_inj c' c), (digit_value_inj d' d); auto; lia.
Qed.

Lemma zeroFill_decimal2 a b :
  forallb is_digit [a; b] = true ->
  zeroFill (Spec.decimal [a; b]) 2 = String a (String b "").
Proof.
  intros H. cbn [forallb] in H.
  repeat (apply andb_prop in H; destruct H as [? H]). clear H.
  pose proof (digit_range a ltac:(assumption)).
  pose proof (digit_range b ltac:(assumption)).
  assert (Hy : 0 <= Spec.decimal [a; b] <= 99)
    by (unfold Spec.decimal; cbn [fold_left]; lia).
  destruct (zeroFill_2 _ Hy) as (a' & b' & -> & Hd & Hv).
  cbn [forallb] in Hd.
  repeat (apply andb_prop in Hd; destruct Hd as [? Hd]). clear Hd.
  pose proof (digit_range a' ltac:(assumption)).
  pose proof (digit_range b' ltac:(assumption)).
  unfold Spec.decimal in Hv. cbn [fold_left] in Hv.
  rewrite (digit_value_inj a' a), (digit_value_inj b' b); auto; lia.
Qed.

(** What [new Date(text)] makes of a text of the shape dddd-dd-dd. *)
Lemma Date_of_string_on_shape y1 y2 y3 y4 m1 m2 d1 d2 :
  forallb is_digit [y1; y2; y3; y4; m1; m2; d1; d2] = true ->
  Date_of_string (ymd_string y1 y2 y3 y4 m1 m2 d1 d2)
  = if Spec.isValidCalendarDate (ymd_string y1 y2 y3 y4 m1 m2 d1 d2)
    then Some (days_from_civil (Spec.decimal [y1; y2; y3; y4])
                               (Spec.decimal [m1; m2])
                               (Spec.decimal [d1; d2]) * 86400000)
    else None.
Proof.
  intros H. unfold Date_of_string.
  rewrite (strict_on_shape _ _ _ _ _ _ _ _ H).
  destruct (Spec.isValidCalendarDate _); [|reflexivity].
  cbn [forallb] in H.
  repeat (apply andb_prop in H; destruct H as [? H]). clear H.
  unfold configFromStringAndFormat, YYYY_MM_DD, ymd_string.
  cbn [fold_left].
  rewrite step_YYYY, step_Literal, step_MM, step_Literal, step_DD by assumption.
  cbn [a_YEAR a_MONTH a_DATE]. do 3 f_equal. lia.
Qed.

Lemma calendar_date_fields y1 y2 y3 y4 m1 m2 d1 d2 :
  Spec.isValidCalendarDate (ymd_string y1 y2 y3 y4 m1 m2 d1 d2) = true ->
  forallb is_digit [y1; y2; y3; y4; m1; m2; d1; d2] = true
  /\ 1 <= Spec.decimal [m1; m2] <= 12
  /\ 1 <= Spec.decimal [d1; d2]
          <= Spec.days_in_month (Spec.decimal [y1; y2; y3; y4])
                                (Spec.decimal [m1; m2]).
Proof.
  unfold Spec.isValidCalendarDate, ymd_string. cbn [list_ascii_of_string].
  intros H. apply andb_prop in H. destruct H as [H Hrange].
  apply andb_prop in H. destruct H as [H _].
  apply andb_prop in H. destruct H as [Hdigits _].
  split; [exact Hdigits|].
  repeat (apply andb_prop in Hrange; destruct Hrange as [Hrange ?]).
  repeat match goal with
         | H : (_ <=? _) = true |- _ => apply Z.leb_le in H
         end.
  lia.
Qed.

Lemma Date_of_string_valid text t :
  Date_of_string text = Some t ->
  isValid_strict text (configFromStringAndFormat YYYY_MM_DD text) = true.
Proof.
  unfold Date_of_string.
  destruct (isValid_strict text _); [reflexivity|discriminate].
Qed.

Section DateRoundTrips.

Variable utcOffset : Z -> Z.
Variable moment_parse : jsval -> option Z.
Variable driver_limit : jsval -> Limit.

(** A text that [new Date] reads as midnight UTC of day [z] is the
    rendering of that day. *)
Lemma render_of_Date_of_string text z :
  Date_of_string text = Some (z * 86400000) ->
  render_YYYY_MM_DD (civil_from_days z) = text.
Proof.
  intros H. pose proof (Date_of_string_valid _ _ H) as Hvalid.
  destruct (strict_shape text Hvalid)
    as (y1 & y2 & y3 & y4 & m1 & m2 & d1 & d2 & -> & Hd).
  rewrite (strict_on_shape _ _ _ _ _ _ _ _ Hd) in Hvalid.
  rewrite (Date_of_string_on_shape _ _ _ _ _ _ _ _ Hd), Hvalid in H.
  injection H as H.
  assert (Hz : z = days_from_civil (Spec.decimal [y1; y2; y3; y4])
                                   (Spec.decimal [m1; m2])
                                   (Spec.decimal [d1; d2])) by lia.
  destruct (calendar_date_fields _ _ _ _ _ _ _ _ Hvalid) as (_ & Hm & Hday).
  rewrite Hz, (civil_of_days_from_civil _ _ _ Hm Hday).
  unfold render_YYYY_MM_DD.
  cbn [forallb] in Hd.
  repeat (apply andb_prop in Hd; destruct Hd as [? Hd]). clear Hd.
  assert (Hy4 : forallb is_digit [y1; y2; y3; y4] = true)
    by all_digits.
  assert (Hm2 : forallb is_digit [m1; m2] = true)
    by all_digits.
  assert (Hd2 : forallb is_digit [d1; d2] = true)
    by all_digits.
  rewrite (zeroFill_decimal4 _ _ _ _ Hy4), (zeroFill_decimal2 _ _ Hm2),
    (zeroFill_decimal2 _ _ Hd2).
  reflexivity.
Qed.



(** X16.  A [from] or [to] that [moment] cannot read makes the log
    answer 500: the text "Invalid date" is put in the filter, the query
    fails to cast it, and the catch branch answers. *)
Theorem unreadable_date_filter_is_500
  (userId : string) (from to limit : jsval) (d : Database) (now : Z)
  (user : User) :
  ObjectId_isValid userId = true ->
  online d = true ->
  find_user d userId = Some user ->
  (truthy from = true /\ moment_parse from = None)
  \/ (truthy to = true /\ moment_parse to = None) ->
  response (run (get_logs utcOffset moment_parse driver_limit
                   userId from to limit) d now)
  = Some (mkResponse 500 (ErrorBody false 500 "Error retrieving exercises")).
Proof.
  intros Hid Hon Huser Hbad.
  assert (Hcast : cast_filter (build_filter utcOffset moment_parse userId from to)
                  = None).
  { unfold cast_filter, build_filter, formatDate, moment.
    cbn [filter_userId filter_date gte lte]. rewrite Hid.
    destruct Hbad as [(Ht & Hp) | (Ht & Hp)]; rewrite Ht, Hp.
    - reflexivity.
    - cbn [gte lte].
      change (cast_bound (Some (format_YYYY_MM_DD utcOffset None)))
        with (@None (option Z)).
      destruct (truthy from); [|reflexivity].
      cbn [gte lte].
      change (cast_bound (Some (format_YYYY_MM_DD utcOffset None)))
        with (@None (option Z)).
      destruct (cast_bound _); reflexivity. }
  exec. rewrite Hid. exec. rewrite Hon. exec. rewrite Huser. exec.
  rewrite Hcast.
  destruct (Query_limit driver_limit (effective_limit limit)); exec; reflexivity.
Qed.

End DateRoundTrips.



Lemma unreadable_date_filter_is_500_witness :
  response (run (get_logs Scenario.utc Scenario.moment_date_only Scenario.driver
                   Scenario.john_id (JString "yesterday") JUndefined JUndefined)
                Scenario.john_ran_once 0)
  = Some (mkResponse 500 (ErrorBody false 500 "Error retrieving exercises")).
Proof.
  apply (unreadable_date_filter_is_500
           Scenario.utc Scenario.moment_date_only Scenario.driver
           Scenario.john_id (JString "yesterday") JUndefined JUndefined
           Scenario.john_ran_once 0 Scenario.john).
  - reflexivity.
  - reflexivity.
  - reflexivity.
  - left. split; reflexivity.
Defined.

(* ================================================================= *)
(** ** Absent fields, the limit, and a database that cannot be reached *)

Section EdgeCases.

Variable utcOffset : Z -> Z.
Variable moment_parse : jsval -> option Z.
Variable driver_limit : jsval -> Limit.

(** X17.  The limit handed to the query is never falsy and never loosely
    equal to zero, whatever the request holds; and the rule that computes
    it leaves its own results alone. *)
Theorem effective_limit_is_never_zero (limit : jsval) :
  truthy (effective_limit limit) = true
  /\ loose_eq_zero (effective_limit limit) = false
  /\ effective_limit (effective_limit limit) = effective_limit limit.
Proof.
  assert (H : truthy (effective_limit limit) = true
              /\ loose_eq_zero (effective_limit limit) = false).
  { unfold effective_limit.
    destruct (truthy limit) eqn:Ht; cbn [negb]; [|split; reflexivity].
    destruct (loose_eq_zero limit) eqn:Hz; [split; reflexivity|].
    split; assumption. }
  destruct H as [Ht Hz]. split; [exact Ht|]. split; [exact Hz|].
  unfold effective_limit at 1. now rewrite Ht, Hz.
Qed.

(** X18.  A field that is falsy counts as absent: an exercise date, a
    [from], a [to] or a [limit] that is the empty text or the number 0 is
    handled exactly as if the field had not been sent. *)
Theorem falsy_fields_count_as_absent (v : jsval) :
  truthy v = false ->
  (forall id duration description,
      post_exercises utcOffset moment_parse id duration description v
      = post_exercises utcOffset moment_parse id duration description JUndefined)
  /\ (forall id to limit,
        get_logs utcOffset moment_parse driver_limit id v to limit
        = get_logs utcOffset moment_parse driver_limit id JUndefined to limit)
  /\ (forall id from limit,
        get_logs utcOffset moment_parse driver_limit id from v limit
        = get_logs utcOffset moment_parse driver_limit id from JUndefined limit)
  /\ (forall id from to,
        get_logs utcOffset moment_parse driver_limit id from to v
        = get_logs utcOffset moment_parse driver_limit id from to JUndefined).
Proof.
  intros Hv. repeat split; intros.
  - unfold post_exercises. now rewrite Hv.
  - unfold get_logs, build_filter. now rewrite Hv.
  - unfold get_logs, build_filter. now rewrite Hv.
  - unfold get_logs, effective_limit. now rewrite Hv.
Qed.

(** X19.  When the database cannot be reached no request succeeds, and
    every request that needs the database is answered 500: the user
    list, the log, a user creation with an acceptable name, an exercise
    creation with a well-formed id.  The checks made before the first
    database call still answer 400, and the fallback answers as
    always. *)
Theorem unreachable_database_is_500
  (req : Request) (d : Database) (now : Z) (r : Response) :
  online d = false ->
  response (run (handle utcOffset moment_parse driver_limit req) d now) = Some r ->
  (Behaviour.needs_database req = true -> status r = 500)
  /\ 400 <= status r
  /\ db (run (handle utcOffset moment_parse driver_limit req) d now) = d
  /\ (Behaviour.needs_database req = false ->
      db_calls (run (handle utcOffset moment_parse driver_limit req) d now) = []).
Proof.
  intros Hoff.
  destruct req as [| u | id du de da | id f t l | url];
    cbn [handle Behaviour.needs_database].
  - exec. rewrite Hoff. exec. intros [= <-]. cbn [status]. repeat split; try lia; discriminate.
  - destruct (invalid_username u) eqn:Hinv; exec; rewrite Hinv; exec.
    + intros [= <-]. cbn [status negb]. repeat split; try lia; discriminate.
    + apply invalid_username_false in Hinv. destruct Hinv as (t & -> & Hlen).
      cbn [ToString]. rewrite (username_set_nonempty t Hlen). exec.
      rewrite Hoff. exec. intros [= <-]. cbn [status negb].
      repeat split; try lia; discriminate.
  - destruct (ObjectId_isValid id) eqn:Hid; exec; rewrite ?Hid; exec.
    + rewrite Hoff. exec. intros [= <-]. cbn [status].
      repeat split; try lia; discriminate.
    + intros [= <-]. cbn [status]. repeat split; try lia; discriminate.
  - destruct (ObjectId_isValid id) eqn:Hid; exec; rewrite ?Hid; exec;
      rewrite ?Hoff; exec; intros [= <-]; cbn [status];
      repeat split; try lia; discriminate.
  - unfold fallback. destruct (url =? "/api/users//exercises")%string; exec;
      intros [= <-]; cbn [status]; repeat split; try lia; discriminate.
Qed.


End EdgeCases.

Lemma falsy_fields_count_as_absent_witness :
  (forall id duration description,
      post_exercises Scenario.utc Scenario.moment_date_only
        id duration description (JString "")
      = post_exercises Scenario.utc Scenario.moment_date_only
          id duration description JUndefined)
  /\ (forall id to limit,
        get_logs Scenario.utc Scenario.moment_date_only Scenario.driver
          id (JString "") to limit
        = get_logs Scenario.utc Scenario.moment_date_only Scenario.driver
            id JUndefined to limit)
  /\ (forall id from limit,
        get_logs Scenario.utc Scenario.moment_date_only Scenario.driver
          id from (JString "") limit
        = get_logs Scenario.utc Scenario.moment_date_only Scenario.driver
            id from JUndefined limit)
  /\ (forall id from to,
        get_logs Scenario.utc Scenario.moment_date_only Scenario.driver
          id from to (JString "")
        = get_logs Scenario.utc Scenario.moment_date_only Scenario.driver
            id from to JUndefined).
Proof.
  apply (falsy_fields_count_as_absent
           Scenario.utc Scenario.moment_date_only Scenario.driver (JString "")).
  reflexivity.
Defined.

Lemma unreachable_database_is_500_witness :
  (Behaviour.needs_database (GET_logs Scenario.john_id JUndefined JUndefined
                                      JUndefined) = true ->
   status (mkResponse 500 (ErrorBody false 500 "Error retrieving exercises"))
   = 500)
  /\ 400 <= status (mkResponse 500
                      (ErrorBody false 500 "Error retrieving exercises"))
  /\ db (run (handle Scenario.utc Scenario.moment_date_only Scenario.driver
                (GET_logs Scenario.john_id JUndefined JUndefined JUndefined))
             (Behaviour.seen Scenario.john_ran_once false) 0)
     = Behaviour.seen Scenario.john_ran_once false
  /\ (Behaviour.needs_database (GET_logs Scenario.john_id JUndefined JUndefined
                                         JUndefined) = false ->
      db_calls (run (handle Scenario.utc Scenario.moment_date_only
                       Scenario.driver
                       (GET_logs Scenario.john_id JUndefined JUndefined
                                 JUndefined))
                    (Behaviour.seen Scenario.john_ran_once false) 0) = []).
Proof.
  apply (unreachable_database_is_500
           Scenario.utc Scenario.moment_date_only Scenario.driver
           (GET_logs Scenario.john_id JUndefined JUndefined JUndefined)
           (Behaviour.seen Scenario.john_ran_once false) 0
           (mkResponse 500 (ErrorBody false 500 "Error retrieving exercises"))).
  - reflexivity.
  - reflexivity.
Defined.
